(** * Chronos Lens: the generation run and the page handlers

    A shallow embedding of [services/geminiService.ts] and of the handlers
    of [App.tsx], with the properties of the written specification proved
    (or refuted) about it.

    - [JS] holds what the handlers take from the language: strings as
      sequences of UTF-16 code units, JSON values, truthiness, property
      reads, [JSON.parse], [parseInt], [parseFloat], [encodeURIComponent].
    - [Host] is everything outside the page: the key picker, the GenAI
      client, the geocoder, the way the engine prints numbers and words
      its own errors.
    - [geminiService] and [App] follow the source statement by statement,
      in a state-and-exception monad whose state carries the outside world,
      the log of calls made to it and the React state of the page.
    - [Scripted] is a host that answers from prepared lists, on which the
      handlers are run.
    - The properties come last, numbered as in the specification's list
      of claims. *)

From Stdlib Require Import String Ascii.
From Stdlib Require Import List ZArith NArith Bool Lia.
Import ListNotations.

Set Implicit Arguments.
Set Warnings "-register-all".

(* ================================================================== *)
(** * The language runtime *)
(* ================================================================== *)

Module JS.

(** ** Strings: sequences of UTF-16 code units *)

Definition jsstring := list N.

Definition code (a : ascii) : N := N_of_ascii a.

(** A source literal (all literals the handlers use are ASCII). *)
Definition lit (s : string) : jsstring := map code (list_ascii_of_string s).

(** The double quote, and a text between double quotes. *)
Definition quote : N := 34%N.

Definition quoted (s : string) : jsstring := quote :: lit s ++ [quote].

Fixpoint jsstring_eqb (a b : jsstring) : bool :=
  match a, b with
  | [], [] => true
  | x :: a', y :: b' => N.eqb x y && jsstring_eqb a' b'
  | _, _ => false
  end.

Fixpoint startsWith (s prefix : jsstring) : bool :=
  match prefix, s with
  | [], _ => true
  | p :: prefix', c :: s' => N.eqb p c && startsWith s' prefix'
  | _ :: _, [] => false
  end.

(** [s.includes(sub)] *)
Fixpoint includes (s sub : jsstring) : bool :=
  startsWith s sub ||
  match s with
  | [] => false
  | _ :: s' => includes s' sub
  end.

(** [s.split(sep)[0]] for a one-unit separator: the text before the first
    separator, the whole string when there is none. *)
Fixpoint split_head (sep : N) (s : jsstring) : jsstring :=
  match s with
  | [] => []
  | c :: s' => if N.eqb c sep then [] else c :: split_head sep s'
  end.

(** WhiteSpace and LineTerminator code units, as [trim] removes them. *)
Definition is_white_space (c : N) : bool :=
  existsb (N.eqb c)
    [9; 10; 11; 12; 13; 32; 160; 5760; 8232; 8233; 8239; 8287; 12288; 65279]%N
  || (N.leb 8192%N c && N.leb c 8202%N).

Fixpoint trimStart (s : jsstring) : jsstring :=
  match s with
  | [] => []
  | c :: s' => if is_white_space c then trimStart s' else s
  end.

Definition trimEnd (s : jsstring) : jsstring := rev (trimStart (rev s)).

Definition trim (s : jsstring) : jsstring := trimEnd (trimStart s).

Definition is_empty (s : jsstring) : bool :=
  match s with [] => true | _ :: _ => false end.

(** ** Numbers

    A double is kept as the decimal or integer literal it was read from:
    [Finite m e] stands for the double nearest to [m * 10^e].  The handlers
    store numbers, pass them on, and test them against zero; they never
    compute with them. *)

Inductive number :=
| Finite (mantissa exponent : Z)
| NaN
| Infinity (negative : bool).

(** Whether the nearest double is (plus or minus) zero: the literal is zero,
    or it lies at most half the least subnormal, [2^-1075], from zero. *)
Definition is_zero (n : number) : bool :=
  match n with
  | Finite m e =>
      if (e <? 0)%Z then (Z.abs m * 2 ^ 1075 <=? 10 ^ (- e))%Z
      else (m =? 0)%Z
  | _ => false
  end.

(** [n > 0] *)
Definition is_positive (n : number) : bool :=
  match n with
  | Finite m _ => (0 <? m)%Z && negb (is_zero n)
  | NaN => false
  | Infinity negative => negb negative
  end.

Definition of_nat (k : nat) : number := Finite (Z.of_nat k) 0%Z.

(** ** Values: what [JSON.parse] and property reads produce *)

Inductive JSValue :=
| JUndefined
| JNull
| JBool (b : bool)
| JNumber (n : number)
| JString (s : jsstring)
| JArray (items : list JSValue)
| JObject (props : list (jsstring * JSValue)).

(** ToBoolean, the test behind [!x], [x && y], [x || y] and [x ? y : z]. *)
Definition truthy (v : JSValue) : bool :=
  match v with
  | JUndefined | JNull => false
  | JBool b => b
  | JNumber n => match n with NaN => false | _ => negb (is_zero n) end
  | JString s => negb (is_empty s)
  | JArray _ | JObject _ => true
  end.

(** [a || b] *)
Definition or_else (a b : JSValue) : JSValue := if truthy a then a else b.

(** An own property of an object read from JSON text; where the text
    repeats a key the last occurrence is the one that stays. *)
Definition own_property (key : jsstring) (props : list (jsstring * JSValue))
  : option JSValue :=
  fold_left (fun found kv => if jsstring_eqb (fst kv) key then Some (snd kv) else found)
            props None.

(** [v.key] for a key that no prototype defines (the handlers read
    [visualPrompt], [story], [lat], [lon], [display_name]).  [None]: the
    engine raises a TypeError, [v] being [undefined] or [null]. *)
Definition get (v : JSValue) (key : jsstring) : option JSValue :=
  match v with
  | JUndefined | JNull => None
  | JObject props =>
      Some match own_property key props with Some x => x | None => JUndefined end
  | _ => Some JUndefined
  end.

(** [v.length], for a [v] that is not [undefined] or [null]. *)
Definition get_length (v : JSValue) : JSValue :=
  match v with
  | JString s => JNumber (of_nat (length s))
  | JArray items => JNumber (of_nat (length items))
  | JObject props =>
      match own_property (lit "length") props with Some x => x | None => JUndefined end
  | _ => JUndefined
  end.

(** [v[0]], for a [v] that is not [undefined] or [null]. *)
Definition get_first (v : JSValue) : JSValue :=
  match v with
  | JString (c :: _) => JString [c]
  | JArray (x :: _) => x
  | JObject props =>
      match own_property (lit "0") props with Some x => x | None => JUndefined end
  | _ => JUndefined
  end.

(** ** Thrown values and outcomes *)

(** What a [catch] clause receives.  The handlers read nothing of it but
    its [message]; what is thrown is taken to be an error object, whose
    message, when it has one, is a string. *)
Record Thrown := { message : option jsstring }.

Inductive Outcome (A : Type) :=
| Ok (a : A)
| Throw (e : Thrown).
Arguments Ok {A} a.
Arguments Throw {A} e.

(** The errors the engine itself raises; their wording differs between
    engines and is supplied by the host. *)
Inductive EngineFault :=
| ReadOfNullish      (* TypeError: a property of undefined or null is read *)
| NotAFunction       (* TypeError: a value that is not a function is called *)
| NoPrimitiveValue   (* TypeError: an object has no usable toString/valueOf *)
| MalformedURI.      (* URIError: a lone surrogate reaches encodeURIComponent *)

(** ** Reading numbers out of text *)

Definition is_digit (c : N) : bool := N.leb 48%N c && N.leb c 57%N.

Definition digit_value (c : N) : Z := (Z.of_N c - 48)%Z.

(** The digit of [c] in base 16, if it is one. *)
Definition hex_value (c : N) : option Z :=
  if is_digit c then Some (digit_value c)
  else if N.leb 97%N c && N.leb c 102%N then Some (Z.of_N c - 87)%Z
  else if N.leb 65%N c && N.leb c 70%N then Some (Z.of_N c - 55)%Z
  else None.

(** The longest run of decimal digits at the head of [s], and what follows. *)
Fixpoint digits (s : jsstring) : list Z * jsstring :=
  match s with
  | [] => ([], [])
  | c :: s' =>
      if is_digit c then let (ds, rest) := digits s' in (digit_value c :: ds, rest)
      else ([], s)
  end.

Definition decimal_value (ds : list Z) : Z :=
  fold_left (fun acc d => acc * 10 + d)%Z ds 0%Z.

Definition signed (negative : bool) (z : Z) : Z := if negative then (- z)%Z else z.

(** An exponent part [e], [e+] or [e-] followed by digits; [None] when the
    text does not start with a complete one. *)
Definition exponent_part (s : jsstring) : option (Z * jsstring) :=
  match s with
  | c :: s1 =>
      if N.eqb c (code "e") || N.eqb c (code "E") then
        let (negative, s2) :=
          match s1 with
          | d :: s1' =>
              if N.eqb d (code "-") then (true, s1')
              else if N.eqb d (code "+") then (false, s1')
              else (false, s1)
          | [] => (false, s1)
          end in
        match digits s2 with
        | ([], _) => None
        | (ds, rest) => Some (signed negative (decimal_value ds), rest)
        end
      else None
  | [] => None
  end.

(** The number written as integer digits, fraction digits and exponent. *)
Definition literal (negative : bool) (int_ds frac_ds : list Z) (exponent : Z) : number :=
  Finite (signed negative (decimal_value (int_ds ++ frac_ds)))
         (exponent - Z.of_nat (length frac_ds))%Z.

(** A JSON number at the head of [s]: an optional minus; a single zero or
    digits that do not start with zero; optionally a point and digits;
    optionally an exponent part. *)
Definition json_number (s : jsstring) : option (number * jsstring) :=
  let (negative, s1) :=
    match s with
    | c :: s' => if N.eqb c (code "-") then (true, s') else (false, s)
    | [] => (false, s)
    end in
  match s1 with
  | c :: s1' =>
      if is_digit c then
        let (int_ds, s2) := if N.eqb c (code "0") then ([0%Z], s1') else digits s1 in
        let fraction :=
          match s2 with
          | d :: s2' =>
              if N.eqb d (code ".") then
                match digits s2' with
                | ([], _) => None
                | (fs, rest) => Some (fs, rest)
                end
              else Some ([], s2)
          | [] => Some ([], s2)
          end in
        match fraction with
        | None => None
        | Some (frac_ds, s3) =>
            match s3 with
            | x :: _ =>
                if N.eqb x (code "e") || N.eqb x (code "E") then
                  match exponent_part s3 with
                  | Some (ex, rest) => Some (literal negative int_ds frac_ds ex, rest)
                  | None => None
                  end
                else Some (literal negative int_ds frac_ds 0%Z, s3)
            | [] => Some (literal negative int_ds frac_ds 0%Z, s3)
            end
        end
      else None
  | [] => None
  end.

(** The longest StrDecimalLiteral at the head of [s], as [parseFloat] and
    the string-to-number conversion read it: an optional sign, then
    [Infinity], or digits with an optional fraction, or a fraction alone,
    then an exponent part if a complete one follows. *)
Definition decimal_literal (s : jsstring) : option (number * jsstring) :=
  let (negative, s1) :=
    match s with
    | c :: s' =>
        if N.eqb c (code "-") then (true, s')
        else if N.eqb c (code "+") then (false, s')
        else (false, s)
    | [] => (false, s)
    end in
  if startsWith s1 (lit "Infinity") then Some (Infinity negative, skipn 8 s1)
  else
    let (int_ds, s2) := digits s1 in
    let (frac_ds, s3) :=
      match s2 with
      | d :: s2' =>
          if N.eqb d (code ".") then
            match int_ds, digits s2' with
            | [], ([], _) => ([], s2)
            | _, (fs, rest) => (fs, rest)
            end
          else ([], s2)
      | [] => ([], s2)
      end in
    match int_ds, frac_ds with
    | [], [] => None
    | _, _ =>
        match exponent_part s3 with
        | Some (ex, rest) => Some (literal negative int_ds frac_ds ex, rest)
        | None => Some (literal negative int_ds frac_ds 0%Z, s3)
        end
    end.

(** [parseFloat(s)] for a string argument. *)
Definition parseFloat (s : jsstring) : number :=
  match decimal_literal (trimStart s) with
  | Some (n, _) => n
  | None => NaN
  end.

(** The longest run of digits of base [radix] at the head of [s]. *)
Fixpoint radix_digits (radix : Z) (s : jsstring) : list Z :=
  match s with
  | [] => []
  | c :: s' =>
      match hex_value c with
      | Some d => if (d <? radix)%Z then d :: radix_digits radix s' else []
      | None => []
      end
  end.

Definition radix_value (radix : Z) (ds : list Z) : Z :=
  fold_left (fun acc d => acc * radix + d)%Z ds 0%Z.

(** [parseInt(s)] with no radix argument; [None] is NaN.  The result is an
    integer-valued double; it is used as an array index only, for which the
    integer itself decides. *)
Definition parseInt (s : jsstring) : option Z :=
  let s0 := trimStart s in
  let (negative, s1) :=
    match s0 with
    | c :: s' =>
        if N.eqb c (code "-") then (true, s')
        else if N.eqb c (code "+") then (false, s')
        else (false, s0)
    | [] => (false, s0)
    end in
  let (radix, s2) :=
    if startsWith s1 (lit "0x") || startsWith s1 (lit "0X")
    then (16%Z, skipn 2 s1) else (10%Z, s1) in
  match radix_digits radix s2 with
  | [] => None
  | ds => Some (signed negative (radix_value radix ds))
  end.

(** The string-to-number conversion: the whole trimmed text must be one
    numeric literal; the empty text is zero. *)
Definition StringToNumber (s : jsstring) : number :=
  let t := trim s in
  let prefixed (p1 p2 : string) (radix : Z) : option number :=
    if startsWith t (lit p1) || startsWith t (lit p2) then
      let body := skipn 2 t in
      let ds := radix_digits radix body in
      Some (if is_empty body || negb (Nat.eqb (length ds) (length body)) then NaN
            else Finite (radix_value radix ds) 0%Z)
    else None in
  if is_empty t then Finite 0 0%Z
  else
    match (prefixed "0x" "0X" 16%Z, prefixed "0o" "0O" 8%Z, prefixed "0b" "0B" 2%Z)%string with
    | (Some n, _, _) | (None, Some n, _) | (None, None, Some n) => n
    | (None, None, None) =>
        match decimal_literal t with
        | Some (n, []) => n
        | _ => NaN
        end
    end.

(** ** [JSON.parse] *)

Definition is_json_space (c : N) : bool :=
  N.eqb c 32%N || N.eqb c 9%N || N.eqb c 10%N || N.eqb c 13%N.

Fixpoint skip_space (s : jsstring) : jsstring :=
  match s with
  | [] => []
  | c :: s' => if is_json_space c then skip_space s' else s
  end.

(** The characters of a string literal after its opening quote, with the
    text after the closing quote. *)
Fixpoint json_string (s : jsstring) : option (jsstring * jsstring) :=
  let keep (c : N) (r : option (jsstring * jsstring)) :=
    match r with
    | Some (body, rest) => Some (c :: body, rest)
    | None => None
    end in
  match s with
  | [] => None
  | c :: s1 =>
      if N.eqb c quote then Some ([], s1)
      else if N.eqb c (code "\") then
        match s1 with
        | [] => None
        | e :: s2 =>
            if N.eqb e quote then keep 34%N (json_string s2)
            else if N.eqb e (code "\") then keep 92%N (json_string s2)
            else if N.eqb e (code "/") then keep 47%N (json_string s2)
            else if N.eqb e (code "b") then keep 8%N (json_string s2)
            else if N.eqb e (code "f") then keep 12%N (json_string s2)
            else if N.eqb e (code "n") then keep 10%N (json_string s2)
            else if N.eqb e (code "r") then keep 13%N (json_string s2)
            else if N.eqb e (code "t") then keep 9%N (json_string s2)
            else if N.eqb e (code "u") then
              match s2 with
              | h1 :: h2 :: h3 :: h4 :: s3 =>
                  match hex_value h1, hex_value h2, hex_value h3, hex_value h4 with
                  | Some a, Some b, Some c', Some d =>
                      keep (Z.to_N (((a * 16 + b) * 16 + c') * 16 + d)%Z) (json_string s3)
                  | _, _, _, _ => None
                  end
              | _ => None
              end
            else None
        end
      else if N.ltb c 32%N then None
      else keep c (json_string s1)
  end.

(** One value at the head of [s] (which starts with no white space), the
    elements of an array after its first, the members of an object. *)
Fixpoint json_value (fuel : nat) (s : jsstring) : option (JSValue * jsstring) :=
  match fuel with
  | O => None
  | S fuel' =>
      if startsWith s (lit "null") then Some (JNull, skipn 4 s)
      else if startsWith s (lit "true") then Some (JBool true, skipn 4 s)
      else if startsWith s (lit "false") then Some (JBool false, skipn 5 s)
      else
        match s with
        | [] => None
        | c :: s1 =>
            if N.eqb c quote then
              match json_string s1 with
              | Some (body, rest) => Some (JString body, rest)
              | None => None
              end
            else if N.eqb c (code "[") then
              match skip_space s1 with
              | d :: s2 =>
                  if N.eqb d (code "]") then Some (JArray [], s2)
                  else json_elements fuel' (d :: s2) []
              | [] => None
              end
            else if N.eqb c (code "{") then
              match skip_space s1 with
              | d :: s2 =>
                  if N.eqb d (code "}") then Some (JObject [], s2)
                  else json_members fuel' (d :: s2) []
              | [] => None
              end
            else
              match json_number s with
              | Some (n, rest) => Some (JNumber n, rest)
              | None => None
              end
        end
  end

with json_elements (fuel : nat) (s : jsstring) (seen : list JSValue)
  : option (JSValue * jsstring) :=
  match fuel with
  | O => None
  | S fuel' =>
      match json_value fuel' s with
      | None => None
      | Some (v, rest) =>
          match skip_space rest with
          | d :: rest' =>
              if N.eqb d (code ",") then json_elements fuel' (skip_space rest') (v :: seen)
              else if N.eqb d (code "]") then Some (JArray (rev (v :: seen)), rest')
              else None
          | [] => None
          end
      end
  end

with json_members (fuel : nat) (s : jsstring) (seen : list (jsstring * JSValue))
  : option (JSValue * jsstring) :=
  match fuel with
  | O => None
  | S fuel' =>
      match s with
      | q :: s1 =>
          if N.eqb q quote then
            match json_string s1 with
            | None => None
            | Some (key, s2) =>
                match skip_space s2 with
                | colon :: s3 =>
                    if N.eqb colon (code ":") then
                      match json_value fuel' (skip_space s3) with
                      | None => None
                      | Some (v, rest) =>
                          match skip_space rest with
                          | d :: rest' =>
                              if N.eqb d (code ",")
                              then json_members fuel' (skip_space rest') ((key, v) :: seen)
                              else if N.eqb d (code "}")
                              then Some (JObject (rev ((key, v) :: seen)), rest')
                              else None
                          | [] => None
                          end
                      end
                    else None
                | [] => None
                end
            end
          else None
      | [] => None
      end
  end.

(** [JSON.parse(text)]; [None]: a SyntaxError is raised.  Every call of the
    parser consumes a character within two steps, so twice the length of
    the text is fuel enough. *)
Definition JSON_parse (text : jsstring) : option JSValue :=
  match json_value (2 * length text + 2) (skip_space text) with
  | Some (v, rest) => if is_empty (skip_space rest) then Some v else None
  | None => None
  end.

(** ** Printing non-negative integers *)

Fixpoint digits_of (fuel : nat) (n : N) (acc : jsstring) : jsstring :=
  match fuel with
  | O => acc
  | S fuel' =>
      let acc' := (48 + n mod 10)%N :: acc in
      if N.eqb (n / 10) 0 then acc' else digits_of fuel' (n / 10)%N acc'
  end.

(** The decimal digits of [n]; a number has no more digits than bits. *)
Definition print_N (n : N) : jsstring := digits_of (S (N.to_nat (N.log2 n))) n [].

(** ** [encodeURIComponent] *)

Definition hex_digit (d : N) : N := if N.ltb d 10%N then (48 + d)%N else (55 + d)%N.

Definition percent (byte : N) : jsstring :=
  [code "%"; hex_digit (byte / 16)%N; hex_digit (byte mod 16)%N].

(** The UTF-8 bytes of a code point. *)
Definition utf8 (cp : N) : list N :=
  if N.ltb cp 128%N then [cp]
  else if N.ltb cp 2048%N then [192 + cp / 64; 128 + cp mod 64]%N
  else if N.ltb cp 65536%N then
    [224 + cp / 4096; 128 + (cp / 64) mod 64; 128 + cp mod 64]%N
  else
    [240 + cp / 262144; 128 + (cp / 4096) mod 64;
     128 + (cp / 64) mod 64; 128 + cp mod 64]%N.

Definition is_uri_unreserved (c : N) : bool :=
  is_digit c || (N.leb 65%N c && N.leb c 90%N) || (N.leb 97%N c && N.leb c 122%N)
  || existsb (N.eqb c) (lit "-_.!~*'()").

Definition is_high_surrogate (c : N) : bool := N.leb 55296%N c && N.leb c 56319%N.
Definition is_low_surrogate (c : N) : bool := N.leb 56320%N c && N.leb c 57343%N.

(** [None]: a URIError is raised (a surrogate without its partner). *)
Fixpoint encodeURIComponent (s : jsstring) : option jsstring :=
  let after (head : jsstring) (r : option jsstring) :=
    match r with Some tail => Some (head ++ tail) | None => None end in
  match s with
  | [] => Some []
  | c :: s1 =>
      if is_uri_unreserved c then after [c] (encodeURIComponent s1)
      else if is_low_surrogate c then None
      else if is_high_surrogate c then
        match s1 with
        | d :: s2 =>
            if is_low_surrogate d then
              after (flat_map percent (utf8 ((c - 55296) * 1024 + (d - 56320) + 65536)%N))
                    (encodeURIComponent s2)
            else None
        | [] => None
        end
      else after (flat_map percent (utf8 c)) (encodeURIComponent s1)
  end.

End JS.

Import JS.

(* ================================================================== *)
(** * [types.ts] *)
(* ================================================================== *)

Module types.

Record Coordinates := { lat : number; lng : number }.

Record LocationData := { name : jsstring; coords : Coordinates }.

Inductive PhotoStyle :=
| REALISTIC | STREET | PORTRAIT | VINTAGE | CINEMATIC | JOURNALISTIC | PAINTING.

(** The string each member of the enum stands for. *)
Definition label (s : PhotoStyle) : jsstring :=
  match s with
  | REALISTIC => lit "Realistic Photo"
  | STREET => lit "Street Photography"
  | PORTRAIT => lit "Portrait"
  | VINTAGE => lit "Vintage/Sepia"
  | CINEMATIC => lit "Cinematic Shot"
  | JOURNALISTIC => lit "Photojournalism"
  | PAINTING => lit "Oil Painting"
  end.

Record GenerationRequest := {
  location : LocationData;
  date : jsstring;
  time : option jsstring;
  style : PhotoStyle
}.

(** [description] and [story] are declared strings; they hold whatever the
    scene step took out of the parsed reply, which nothing checks. *)
Record GeneratedImage := {
  imageUrl : jsstring;
  description : JSValue;
  story : JSValue;
  promptUsed : jsstring
}.

End types.

(* ================================================================== *)
(** * The world outside the page *)
(* ================================================================== *)

(** What the handlers read of a reply of the GenAI client. *)
Module GenAI.

Record Blob := { mimeType : option jsstring; data : option jsstring }.

(** A part; of its fields only [inlineData] is read. *)
Record Part := { inlineData : option Blob }.

Record Content := { parts : option (list Part) }.

Record Candidate := { content : option Content }.

Record GenerateContentResponse := {
  text : option jsstring;
  candidates : option (list Candidate)
}.

Inductive GenerateContentConfig :=
| StructuredOutput (systemInstruction responseMimeType : jsstring)
                   (properties required : list jsstring)
| ImageOutput (aspectRatio imageSize : jsstring).

Record GenerateContentParameters := {
  model : jsstring;
  contents : jsstring;
  config : GenerateContentConfig
}.

End GenAI.

(** [window.aistudio], where the page runs inside the studio. *)
Record AIStudio (World : Type) := {
  hasSelectedApiKey : World -> Outcome bool * World;
  openSelectKey : World -> Outcome unit * World
}.

Record Host := {
  World : Type;
  aistudio : option (AIStudio World);
  (** [new GoogleGenAI({ apiKey })] *)
  new_GoogleGenAI : World -> Outcome unit * World;
  (** [await ai.models.generateContent(params)] *)
  generateContent :
    GenAI.GenerateContentParameters -> World -> Outcome GenAI.GenerateContentResponse * World;
  (** [await (await fetch(url)).json()] *)
  fetch_json : jsstring -> World -> Outcome JSValue * World;
  (** how the engine prints a double *)
  Number_toString : number -> jsstring;
  (** how the engine words its own errors *)
  fault_message : EngineFault -> jsstring
}.

(** Every call that leaves the page, in the order made. *)
Inductive Call :=
| Call_hasSelectedApiKey
| Call_openSelectKey
| Call_new_GoogleGenAI
| Call_generateContent (params : GenAI.GenerateContentParameters)
| Call_fetch (url : jsstring)
| Call_console_error (label : jsstring).

(** A call made by one of the two generation adapters: building the client
    and sending the request. *)
Definition is_adapter_call (c : Call) : bool :=
  match c with
  | Call_new_GoogleGenAI | Call_generateContent _ => true
  | _ => false
  end.

(* ================================================================== *)
(** * Asynchronous code as state passing *)
(* ================================================================== *)

(** The state a run threads: the world, the calls made so far and the page
    state, whatever it is.  An [await] is a step of the world. *)
Record Sys (host : Host) (Page : Type) := {
  world : World host;
  calls : list Call;
  page : Page
}.

Definition Run (host : Host) (Page A : Type) : Type :=
  Sys host Page -> Outcome A * Sys host Page.

Section Monad.
Context {host : Host} {Page : Type}.

Definition ret {A} (a : A) : Run host Page A := fun s => (Ok a, s).

Definition bind {A B} (m : Run host Page A) (k : A -> Run host Page B) : Run host Page B :=
  fun s =>
    match m s with
    | (Ok a, s') => k a s'
    | (Throw e, s') => (Throw e, s')
    end.

Definition throw {A} (e : Thrown) : Run host Page A := fun s => (Throw e, s).

(** [try { body } catch (err) { handler }] *)
Definition try_catch {A} (body : Run host Page A) (handler : Thrown -> Run host Page A)
  : Run host Page A :=
  fun s =>
    match body s with
    | (Ok a, s') => (Ok a, s')
    | (Throw e, s') => handler e s'
    end.

(** [try { body } finally { cleanup }]: the cleanup runs however the body
    ends, a [return] inside it included. *)
Definition try_finally {A} (body : Run host Page A) (cleanup : Run host Page unit)
  : Run host Page A :=
  fun s =>
    match body s with
    | (r, s') =>
        match cleanup s' with
        | (Ok _, s'') => (r, s'')
        | (Throw e, s'') => (Throw e, s'')
        end
    end.

(** A call to the outside: logged, then answered by the world. *)
Definition external {A} (c : Call) (op : World host -> Outcome A * World host)
  : Run host Page A :=
  fun s =>
    match op (world s) with
    | (r, w) => (r, {| world := w; calls := calls s ++ [c]; page := page s |})
    end.

(** An engine error. *)
Definition fault {A} (f : EngineFault) : Run host Page A :=
  throw {| message := Some (fault_message host f) |}.

(** A step that may raise an engine error. *)
Definition or_fault {A} (f : EngineFault) (o : option A) : Run host Page A :=
  match o with
  | Some a => ret a
  | None => fault f
  end.

Definition console_error (label : jsstring) : Run host Page unit :=
  external (Call_console_error label) (fun w => (Ok tt, w)).

Definition get_page : Run host Page Page := fun s => (Ok (page s), s).

Definition set_page (f : Page -> Page) : Run host Page unit :=
  fun s => (Ok tt, {| world := world s; calls := calls s; page := f (page s) |}).

End Monad.

Declare Scope run_scope.
Delimit Scope run_scope with run.
Notation "x <- m ;; k" := (bind m (fun x => k))
  (at level 61, m at next level, right associativity) : run_scope.
Notation "m ;; k" := (bind m (fun _ => k))
  (at level 61, right associativity) : run_scope.

(** ** Conversions that need the host *)

Section Conversions.
Variable host : Host.

(** ToString, as a template literal applies it.  An array joins its
    elements with commas, [null] and [undefined] leaving nothing; a plain
    object prints as by [Object.prototype.toString], unless the reply gave
    it a [toString] of its own, which is no function. *)
Fixpoint ToString (v : JSValue) : option jsstring :=
  match v with
  | JUndefined => Some (lit "undefined")
  | JNull => Some (lit "null")
  | JBool true => Some (lit "true")
  | JBool false => Some (lit "false")
  | JNumber n => Some (Number_toString host n)
  | JString s => Some s
  | JArray items =>
      let element (x : JSValue) : option jsstring :=
        match x with
        | JUndefined | JNull => Some []
        | _ => ToString x
        end in
      (fix join (l : list JSValue) : option jsstring :=
         match l with
         | [] => Some []
         | [x] => element x
         | x :: rest =>
             match element x, join rest with
             | Some a, Some b => Some (a ++ code "," :: b)
             | _, _ => None
             end
         end) items
  | JObject props =>
      match own_property (lit "toString") props with
      | Some _ => None
      | None => Some (lit "[object Object]")
      end
  end.

(** ToNumber. *)
Definition ToNumber (v : JSValue) : option number :=
  match v with
  | JUndefined => Some NaN
  | JNull => Some (Finite 0 0)
  | JBool b => Some (Finite (if b then 1 else 0) 0)
  | JNumber n => Some n
  | JString s => Some (StringToNumber s)
  | JArray _ | JObject _ => option_map StringToNumber (ToString v)
  end.

(** [v > 0] *)
Definition greater_than_zero (v : JSValue) : option bool :=
  option_map is_positive (ToNumber v).

End Conversions.

(** Lines joined by line feeds, as a template literal spanning lines. *)
Fixpoint unlines (ls : list jsstring) : jsstring :=
  match ls with
  | [] => []
  | [l] => l
  | l :: rest => l ++ 10%N :: unlines rest
  end.

(** [text || fallback] for an optional string. *)
Definition text_or (t : option jsstring) (fallback : jsstring) : jsstring :=
  match t with
  | Some s => if is_empty s then fallback else s
  | None => fallback
  end.

(** [new Error(message)] *)
Definition Error (msg : jsstring) : Thrown := {| message := Some msg |}.

(* ================================================================== *)
(** * [services/geminiService.ts] *)
(* ================================================================== *)

Module geminiService.

Import types GenAI.

Record VisualContext := { visualPrompt : JSValue; story : JSValue }.

Section Service.
Context {host : Host} {Page : Type}.
Local Open Scope run_scope.

(** Helper to ensure key is selected before we start *)
Definition ensureApiKey : Run host Page bool :=
  match aistudio host with
  | Some studio =>
      hasKey <- external Call_hasSelectedApiKey (hasSelectedApiKey studio) ;;
      if negb hasKey then
        external Call_openSelectKey (openSelectKey studio) ;;
        external Call_hasSelectedApiKey (hasSelectedApiKey studio)
      else ret true
  | None => ret false
  end.

Definition scene_prompt (request : GenerationRequest) : jsstring :=
  unlines
    [ [];
      lit "    Location Coordinates: "
        ++ Number_toString host (lat (coords (location request))) ++ lit ", "
        ++ Number_toString host (lng (coords (location request)));
      lit "    Location Name: " ++ name (location request);
      lit "    Date: " ++ date request;
      lit "    " ++ match time request with
                    | Some t => if is_empty t then [] else lit "Time: " ++ t
                    | None => []
                    end;
      lit "    ";
      lit "    Your task is twofold:";
      lit "    1. 'visualPrompt': Describe the visual scene for an image generator. Focus on clothing, architecture, atmosphere, and historical accuracy.";
      lit "    2. 'story': Write a brief, engaging, and fun historical snapshot/narrative of what is happening. Imagine you are a witty time-travel guide explaining the scene to a first-time traveler.";
      lit "  " ].

Definition scene_request (request : GenerationRequest) : GenerateContentParameters :=
  {| model := lit "gemini-2.5-flash";
     contents := scene_prompt request;
     config := StructuredOutput
                 (lit "You are a historical visualization expert and storyteller. Return JSON only.")
                 (lit "application/json")
                 [lit "visualPrompt"; lit "story"]
                 [lit "visualPrompt"; lit "story"] |}.

(** The [try] block over the reply: [None] when [JSON.parse] raises, or
    when a field of [null] is read. *)
Definition read_scene (response : GenerateContentResponse) : option VisualContext :=
  match JSON_parse (text_or (text response) (lit "{}")) with
  | None => None
  | Some json =>
      match get json (lit "visualPrompt"), get json (lit "story") with
      | Some vp, Some st =>
          Some {| visualPrompt := or_else vp (JString (lit "A historical scene."));
                  story := or_else st (JString (lit "Welcome to the past!")) |}
      | _, _ => None
      end
  end.

(** A string with at least one code unit. *)
Definition non_empty_string (v : JSValue) : Prop :=
  exists t, v = JString t /\ t <> [].

(** [v] is what the parsed reply holds under [key], and is a truthy value
    that is not a string. *)
Definition passed_on (response : GenerateContentResponse) (key : jsstring) (v : JSValue)
  : Prop :=
  exists json,
    JSON_parse (text_or (text response) (lit "{}")) = Some json
    /\ get json key = Some v
    /\ truthy v = true
    /\ (forall t, v <> JString t).

(** Step 1: Use Flash to understand history and create a visual prompt + story *)
Definition generateVisualPrompt (request : GenerationRequest) : Run host Page VisualContext :=
  external Call_new_GoogleGenAI (new_GoogleGenAI host) ;;
  response <- external (Call_generateContent (scene_request request))
                       (generateContent host (scene_request request)) ;;
  match read_scene response with
  | Some context => ret context
  | None =>
      console_error (lit "Failed to parse JSON from Gemini Flash") ;;
      ret {| visualPrompt := JString (text_or (text response) (lit "A historical scene."));
             story := JString (lit "Time travel successful, but the flight log is scrambled.") |}
  end.

Definition final_prompt (scene : jsstring) (request : GenerationRequest) : jsstring :=
  unlines
    [ [];
      lit "    " ++ scene;
      lit "    ";
      lit "    Style: " ++ label (style request) ++ lit ".";
      lit "    Quality: High resolution, photorealistic, 8k, detailed textures.";
      lit "    Camera: Accurate to the era if vintage, or modern high-end capture if realistic.";
      lit "  " ].

Definition snapshot_request (finalPrompt : jsstring) : GenerateContentParameters :=
  {| model := lit "gemini-3-pro-image-preview";
     contents := finalPrompt;
     config := ImageOutput (lit "16:9") (lit "2K") |}.

(** [response.candidates?.[0]?.content?.parts] *)
Definition returned_parts (response : GenerateContentResponse) : option (list Part) :=
  match candidates response with
  | Some (candidate :: _) =>
      match content candidate with
      | Some c => parts c
      | None => None
      end
  | _ => None
  end.

(** [part.inlineData && part.inlineData.data], when truthy. *)
Definition inline_bytes (part : Part) : option jsstring :=
  match inlineData part with
  | Some blob =>
      match data blob with
      | Some d => if is_empty d then None else Some d
      | None => None
      end
  | None => None
  end.

(** The [for] loop over the parts: the first part with inline bytes sets
    [imageUrl] and ends the loop. *)
Fixpoint scan_parts (ps : list Part) (imageUrl : jsstring) : jsstring :=
  match ps with
  | [] => imageUrl
  | part :: rest =>
      match inline_bytes part with
      | Some d => lit "data:image/png;base64," ++ d
      | None => scan_parts rest imageUrl
      end
  end.

(** Step 2: Use Pro Image 3 (Nano Banana 3) to generate the image *)
Definition generateSnapshot (request : GenerationRequest) (context : VisualContext)
  : Run host Page GeneratedImage :=
  external Call_new_GoogleGenAI (new_GoogleGenAI host) ;;
  scene <- or_fault NoPrimitiveValue (ToString host (visualPrompt context)) ;;
  let finalPrompt := final_prompt scene request in
  try_catch
    (response <- external (Call_generateContent (snapshot_request finalPrompt))
                          (generateContent host (snapshot_request finalPrompt)) ;;
     let imageUrl :=
       match returned_parts response with
       | Some ps => scan_parts ps []
       | None => []
       end in
     if is_empty imageUrl then throw (Error (lit "No image data received from API."))
     else ret {| imageUrl := imageUrl;
                 description := visualPrompt context;
                 types.story := story context;
                 promptUsed := finalPrompt |})
    (fun error => console_error (lit "Image generation error:") ;; throw error).

End Service.

Arguments scene_prompt host request : clear implicits.
Arguments scene_request host request : clear implicits.

End geminiService.

(* ================================================================== *)
(** * [App.tsx] *)
(* ================================================================== *)

Module App.

Import types.

(** An entry of [RECOMMENDATIONS]. *)
Module Preset.
Record t := {
  label : jsstring;
  locationName : jsstring;
  coords : Coordinates;
  date : jsstring;
  time : jsstring;
  style : PhotoStyle
}.
End Preset.

(** Default to Red Fort approx *)
Definition DEFAULT_COORDS : Coordinates :=
  {| lat := Finite 286562 (-4); lng := Finite 772410 (-4) |}.

Definition RECOMMENDATIONS : list Preset.t :=
  [ {| Preset.label := [55356; 56814; 55356; 56819]%N ++ lit " India's Independence";
       Preset.locationName := lit "Red Fort, Delhi";
       Preset.coords := {| lat := Finite 286562 (-4); lng := Finite 772410 (-4) |};
       Preset.date := lit "1947-08-15";
       Preset.time := lit "08:30";
       Preset.style := JOURNALISTIC |};
    {| Preset.label := [55357; 56960]%N ++ lit " Apollo 11 Landing";
       Preset.locationName := lit "Tranquility Base, Moon";
       Preset.coords := {| lat := Finite 6740 (-4); lng := Finite 234720 (-4) |};
       Preset.date := lit "1969-07-20";
       Preset.time := lit "20:17";
       Preset.style := REALISTIC |};
    {| Preset.label := [55358; 56817]%N ++ lit " Fall of Berlin Wall";
       Preset.locationName := lit "Brandenburg Gate, Berlin";
       Preset.coords := {| lat := Finite 525163 (-4); lng := Finite 133777 (-4) |};
       Preset.date := lit "1989-11-09";
       Preset.time := lit "23:00";
       Preset.style := JOURNALISTIC |};
    {| Preset.label := [55358; 56726]%N ++ lit " Jurassic Era";
       Preset.locationName := lit "Isla Nublar (Costa Rica)";
       Preset.coords := {| lat := Finite 97489 (-4); lng := Finite (-837534) (-4) |};
       Preset.date := lit "-65000000-01-01";
       Preset.time := lit "12:00";
       Preset.style := CINEMATIC |};
    {| Preset.label := [9774; 65039]%N ++ lit " Woodstock '69";
       Preset.locationName := lit "Bethel, New York";
       Preset.coords := {| lat := Finite 41701 (-3); lng := Finite (-74880) (-3) |};
       Preset.date := lit "1969-08-15";
       Preset.time := lit "14:00";
       Preset.style := VINTAGE |};
    {| Preset.label := [9972; 65039]%N ++ lit " Titanic Departure";
       Preset.locationName := lit "Southampton Docks, UK";
       Preset.coords := {| lat := Finite 508970 (-4); lng := Finite (-14040) (-4) |};
       Preset.date := lit "1912-04-10";
       Preset.time := lit "12:00";
       Preset.style := VINTAGE |} ].

(** The state variables of the component. *)
Record State := {
  coords : Coordinates;
  locationName : jsstring;
  date : jsstring;
  time : jsstring;
  style : PhotoStyle;
  isLoading : bool;
  loadingStep : jsstring;
  result : option GeneratedImage;
  error : option jsstring
}.

(** The state of the first render. *)
Definition initial : State :=
  {| coords := DEFAULT_COORDS;
     locationName := lit "Red Fort, Delhi";
     date := lit "1947-08-15";
     time := lit "10:00";
     style := JOURNALISTIC;
     isLoading := false;
     loadingStep := [];
     result := None;
     error := None |}.

(** Everything but the location name is the same in [p] and [q]. *)
Definition frame_but_name (p q : State) : Prop :=
  coords q = coords p /\ date q = date p /\ time q = time p /\ style q = style p
  /\ isLoading q = isLoading p /\ loadingStep q = loadingStep p
  /\ result q = result p /\ error q = error p.

Section Handlers.
Context {host : Host}.
Local Open Scope run_scope.

Let Handler := Run host State.

(** The state setters; each replaces one variable. *)
Definition setCoords (v : Coordinates) : Handler unit :=
  set_page (fun p =>
    {| coords := v; locationName := locationName p; date := date p; time := time p;
       style := style p; isLoading := isLoading p; loadingStep := loadingStep p;
       result := result p; error := error p |}).

Definition setLocationName (v : jsstring) : Handler unit :=
  set_page (fun p =>
    {| coords := coords p; locationName := v; date := date p; time := time p;
       style := style p; isLoading := isLoading p; loadingStep := loadingStep p;
       result := result p; error := error p |}).

Definition setDate (v : jsstring) : Handler unit :=
  set_page (fun p =>
    {| coords := coords p; locationName := locationName p; date := v; time := time p;
       style := style p; isLoading := isLoading p; loadingStep := loadingStep p;
       result := result p; error := error p |}).

Definition setTime (v : jsstring) : Handler unit :=
  set_page (fun p =>
    {| coords := coords p; locationName := locationName p; date := date p; time := v;
       style := style p; isLoading := isLoading p; loadingStep := loadingStep p;
       result := result p; error := error p |}).

Definition setStyle (v : PhotoStyle) : Handler unit :=
  set_page (fun p =>
    {| coords := coords p; locationName := locationName p; date := date p; time := time p;
       style := v; isLoading := isLoading p; loadingStep := loadingStep p;
       result := result p; error := error p |}).

Definition setIsLoading (v : bool) : Handler unit :=
  set_page (fun p =>
    {| coords := coords p; locationName := locationName p; date := date p; time := time p;
       style := style p; isLoading := v; loadingStep := loadingStep p;
       result := result p; error := error p |}).

Definition setLoadingStep (v : jsstring) : Handler unit :=
  set_page (fun p =>
    {| coords := coords p; locationName := locationName p; date := date p; time := time p;
       style := style p; isLoading := isLoading p; loadingStep := v;
       result := result p; error := error p |}).

Definition setResult (v : option GeneratedImage) : Handler unit :=
  set_page (fun p =>
    {| coords := coords p; locationName := locationName p; date := date p; time := time p;
       style := style p; isLoading := isLoading p; loadingStep := loadingStep p;
       result := v; error := error p |}).

Definition setError (v : option jsstring) : Handler unit :=
  set_page (fun p =>
    {| coords := coords p; locationName := locationName p; date := date p; time := time p;
       style := style p; isLoading := isLoading p; loadingStep := loadingStep p;
       result := result p; error := v |}).

(** [v.split(',')[0]]: only a string has a [split] to call. *)
Definition split_first (v : JSValue) : Handler jsstring :=
  match v with
  | JString s => ret (split_head (code ",") s)
  | JUndefined | JNull => fault ReadOfNullish
  | _ => fault NotAFunction
  end.

(** [parseFloat(v)] *)
Definition parse_float (v : JSValue) : Handler number :=
  s <- or_fault NoPrimitiveValue (ToString host v) ;;
  ret (parseFloat s).

(** [data && data.length > 0] *)
Definition has_results (data : JSValue) : Handler bool :=
  if truthy data
  then or_fault NoPrimitiveValue (greater_than_zero host (get_length data))
  else ret false.

(** Simple Geocoding using Nominatim (OpenStreetMap) *)
Definition handleSearch : Handler unit :=
  snapshot <- get_page ;;
  if is_empty (trim (locationName snapshot)) then ret tt
  else
    setIsLoading true ;;
    setLoadingStep (lit "Locating place...") ;;
    try_finally
      (try_catch
         (q <- or_fault MalformedURI (encodeURIComponent (locationName snapshot)) ;;
          let url := lit "https://nominatim.openstreetmap.org/search?format=json&q=" ++ q in
          data <- external (Call_fetch url) (fetch_json host url) ;;
          found <- has_results data ;;
          if found then
            let first := get_first data in
            lat_field <- or_fault ReadOfNullish (get first (lit "lat")) ;;
            new_lat <- parse_float lat_field ;;
            lon_field <- or_fault ReadOfNullish (get first (lit "lon")) ;;
            new_lng <- parse_float lon_field ;;
            setCoords {| lat := new_lat; lng := new_lng |} ;;
            display_name <- or_fault ReadOfNullish (get first (lit "display_name")) ;;
            shown <- split_first display_name ;;
            setLocationName shown
          else setError (Some (lit "Location not found.")))
         (fun _ => setError (Some (lit "Could not find location."))))
      (setIsLoading false ;; setLoadingStep []).

(** Optional: Update text box when map is clicked *)
Definition handleReverseGeocode (c : Coordinates) : Handler unit :=
  try_catch
    (let url := lit "https://nominatim.openstreetmap.org/reverse?format=json&lat="
                  ++ Number_toString host (lat c) ++ lit "&lon="
                  ++ Number_toString host (lng c) in
     data <- external (Call_fetch url) (fetch_json host url) ;;
     if truthy data then
       display_name <- or_fault ReadOfNullish (get data (lit "display_name")) ;;
       shown <- split_first display_name ;;
       setLocationName (if is_empty shown then lit "Selected Location" else shown)
     else ret tt)
    (fun _ => ret tt) (* Ignore errors for smoothness *).

(** The lookup is started and not awaited; its continuation is run here
    right after, with nothing else in between. *)
Definition handleMapClick (newCoords : Coordinates) : Handler unit :=
  setCoords newCoords ;;
  handleReverseGeocode newCoords.

(** The [value] of the option rendered for entry [idx] of the list. *)
Definition option_value (idx : nat) : jsstring := print_N (N.of_nat idx).

(** [RECOMMENDATIONS[index]]; [None] is [undefined]. *)
Definition preset_at (index : Z) : option Preset.t :=
  if (index <? 0)%Z then None else nth_error RECOMMENDATIONS (Z.to_nat index).

(** [value] is [e.target.value] of the change event. *)
Definition handleRecommendationChange (value : jsstring) : Handler unit :=
  match parseInt value with
  | None => ret tt
  | Some index =>
      rec <- or_fault ReadOfNullish (preset_at index) ;;
      setLocationName (Preset.locationName rec) ;;
      setCoords (Preset.coords rec) ;;
      setDate (Preset.date rec) ;;
      setTime (Preset.time rec) ;;
      setStyle (Preset.style rec) ;;
      (* Provide visual feedback *)
      setResult None ;;
      setError None
  end.

(** The request built from the state the handler was rendered with. *)
Definition build_request (snapshot : State) : GenerationRequest :=
  {| location := {| name := locationName snapshot; types.coords := coords snapshot |};
     types.date := date snapshot;
     types.time := Some (time snapshot);
     types.style := style snapshot |}.

(** The [catch] clause of [handleGenerate]. *)
Definition report (err : Thrown) : Handler unit :=
  let named :=
    match message err with
    | Some m => negb (is_empty m) && includes m (lit "Requested entity was not found")
    | None => false
    end in
  if named then
    setError (Some (lit "API Key validation failed. Please try selecting your key again."))
  else
    setError (Some (text_or (message err) (lit "Failed to generate time travel snapshot."))).

(** The [try] block of [handleGenerate]. *)
Definition generate (snapshot : State) : Handler unit :=
  (* 1. Check API Key *)
  hasKey <- geminiService.ensureApiKey ;;
  if negb hasKey then
    setError (Some (lit "API Key is required to use the Time Machine."))
  else
    setIsLoading true ;;
    (* 2. Build Request *)
    let request := build_request snapshot in
    (* 3. Analyze History (Flash) *)
    setLoadingStep (lit "Consulting historical archives...") ;;
    visualContext <- geminiService.generateVisualPrompt request ;;
    (* 4. Generate Image (Pro Image 3) *)
    setLoadingStep (lit "Developing historical snapshot (Nano Banana 3)...") ;;
    generatedImage <- geminiService.generateSnapshot request visualContext ;;
    setResult (Some generatedImage).

Definition handleGenerate : Handler unit :=
  snapshot <- get_page ;;
  setError None ;;
  setResult None ;;
  try_finally
    (try_catch (generate snapshot) report)
    (setIsLoading false ;; setLoadingStep []).

End Handlers.

(** ** Words for the properties of a run *)

Section Runs.
Context {host : Host}.

(** What a step of the service answers in world [w].  The steps of the
    service neither read nor write the page, so they are run on none. *)
Definition answers {A} (step : Run host unit A) (w : World host) : Outcome A * World host :=
  match step {| world := w; calls := []; page := tt |} with
  | (r, s) => (r, world s)
  end.

(** The run started in [w] goes through its three steps and ends with
    [image]. *)
Definition run_completes (w : World host) (request : GenerationRequest)
           (image : GeneratedImage) : Prop :=
  exists w1 context w2 w3,
    answers geminiService.ensureApiKey w = (Ok true, w1)
    /\ answers (geminiService.generateVisualPrompt request) w1 = (Ok context, w2)
    /\ answers (geminiService.generateSnapshot request context) w2 = (Ok image, w3).

(** No key is available: the check answers no. *)
Definition key_unavailable (w : World host) : Prop :=
  exists w1, answers geminiService.ensureApiKey w = (Ok false, w1).

(** The steps of a run. *)
Inductive Step := CheckingCredentials | Analyzing | Rendering.

(** The run started in [w] ends in [step], which raises [e]. *)
Definition raised_in (step : Step) (w : World host) (request : GenerationRequest)
           (e : Thrown) : Prop :=
  match step with
  | CheckingCredentials =>
      exists w1, answers geminiService.ensureApiKey w = (Throw e, w1)
  | Analyzing =>
      exists w1 w2,
        answers geminiService.ensureApiKey w = (Ok true, w1)
        /\ answers (geminiService.generateVisualPrompt request) w1 = (Throw e, w2)
  | Rendering =>
      exists w1 context w2 w3,
        answers geminiService.ensureApiKey w = (Ok true, w1)
        /\ answers (geminiService.generateVisualPrompt request) w1 = (Ok context, w2)
        /\ answers (geminiService.generateSnapshot request context) w2 = (Throw e, w3)
  end.

End Runs.

(** The message shown for a raised [e]. *)
Definition surfaced (e : Thrown) (msg : jsstring) : Prop :=
  (forall m, message e = Some m ->
             includes m (lit "Requested entity was not found") = true ->
             msg = lit "API Key validation failed. Please try selecting your key again.")
  /\ (forall m, message e = Some m -> m <> [] ->
                includes m (lit "Requested entity was not found") = false ->
                msg = m)
  /\ (message e = None \/ message e = Some [] ->
      msg = lit "Failed to generate time travel snapshot.").

(** The inputs of a run are the same in [p] and [q]. *)
Definition same_inputs (p q : State) : Prop :=
  coords q = coords p /\ locationName q = locationName p /\ date q = date p
  /\ time q = time p /\ style q = style p.

Definition is_picker_call (c : Call) : bool :=
  match c with
  | Call_openSelectKey => true
  | _ => false
  end.

(** ** What the page shows

    The conditions under which the component renders its parts. *)

(** [{error && (...)}]: the banner with the error message. *)
Definition shows_error (p : State) : bool :=
  match error p with
  | Some m => negb (is_empty m)
  | None => false
  end.

(** [disabled={isLoading}] on the generate button. *)
Definition generate_disabled (p : State) : bool := isLoading p.

(** [{result && (...)}]: the image and the traveler's log. *)
Definition shows_result (p : State) : bool :=
  match result p with
  | Some _ => true
  | None => false
  end.

(** [{!result && !isLoading && (...)}]: the invitation to travel. *)
Definition shows_placeholder (p : State) : bool :=
  negb (shows_result p) && negb (isLoading p).

(** [{isLoading && loadingStep.includes("Nano Banana") && (...)}] *)
Definition shows_overlay (p : State) : bool :=
  isLoading p && includes (loadingStep p) (lit "Nano Banana").

(** ** Words for the lookups and the log *)

(** The address [handleSearch] fetches for the encoded query [q]. *)
Definition search_url (q : jsstring) : jsstring :=
  lit "https://nominatim.openstreetmap.org/search?format=json&q=" ++ q.

(** The address [handleReverseGeocode] fetches for [c]. *)
Definition reverse_url (host : Host) (c : Coordinates) : jsstring :=
  lit "https://nominatim.openstreetmap.org/reverse?format=json&lat="
    ++ Number_toString host (lat c) ++ lit "&lon=" ++ Number_toString host (lng c).

(** The request that [handleGenerate] builds once [rec] has been selected. *)
Definition preset_request (rec : Preset.t) : GenerationRequest :=
  {| location := {| name := Preset.locationName rec; types.coords := Preset.coords rec |};
     types.date := Preset.date rec;
     types.time := Some (Preset.time rec);
     types.style := Preset.style rec |}.

(** The calls the key check can leave in the log. *)
Definition key_calls (l : list Call) : Prop :=
  l = [] \/ l = [Call_hasSelectedApiKey]
  \/ l = [Call_hasSelectedApiKey; Call_openSelectKey]
  \/ l = [Call_hasSelectedApiKey; Call_openSelectKey; Call_hasSelectedApiKey].

(** The calls one adapter can leave in the log when it sends [params]:
    nothing (it was not reached), the client only, the client and one
    request, and after these the line [label] on the console. *)
Definition adapter_calls (params : GenAI.GenerateContentParameters) (label : jsstring)
           (l : list Call) : Prop :=
  l = [] \/ l = [Call_new_GoogleGenAI]
  \/ l = [Call_new_GoogleGenAI; Call_generateContent params]
  \/ l = [Call_new_GoogleGenAI; Call_generateContent params; Call_console_error label].

End App.

(* ================================================================== *)
(** * A host that follows a script *)
(* ================================================================== *)

(** A host to run the handlers on: the key picker, the GenAI client and the
    geocoder answer from lists prepared in advance. *)
Module Scripted.

Record Script := {
  keys : list bool;
  replies : list (Outcome GenAI.GenerateContentResponse);
  lookups : list (Outcome JSValue)
}.

Definition has_key (w : Script) : Outcome bool * Script :=
  match keys w with
  | k :: rest => (Ok k, {| keys := rest; replies := replies w; lookups := lookups w |})
  | [] => (Ok false, w)
  end.

Definition open_picker (w : Script) : Outcome unit * Script := (Ok tt, w).

Definition generate (_ : GenAI.GenerateContentParameters) (w : Script)
  : Outcome GenAI.GenerateContentResponse * Script :=
  match replies w with
  | r :: rest => (r, {| keys := keys w; replies := rest; lookups := lookups w |})
  | [] => (Throw (Error (lit "Failed to fetch")), w)
  end.

Definition lookup (_ : jsstring) (w : Script) : Outcome JSValue * Script :=
  match lookups w with
  | r :: rest => (r, {| keys := keys w; replies := replies w; lookups := rest |})
  | [] => (Throw (Error (lit "Failed to fetch")), w)
  end.

Fixpoint drop_zeros (s : jsstring) : jsstring :=
  match s with
  | [] => []
  | c :: s' => if N.eqb c 48 then drop_zeros s' else s
  end.

(** Plain decimal notation, which is how an engine prints a double of
    moderate size with a short decimal form. *)
Definition print_number (n : number) : jsstring :=
  match n with
  | NaN => lit "NaN"
  | Infinity negative => if negative then lit "-Infinity" else lit "Infinity"
  | Finite m e =>
      let sign := if (m <? 0)%Z then lit "-" else [] in
      let a := Z.to_N (Z.abs m) in
      if (0 <=? e)%Z then sign ++ print_N (a * 10 ^ Z.to_N e)
      else
        let scale := (10 ^ Z.to_N (- e))%N in
        let fraction := rev (drop_zeros (rev (tl (print_N (scale + a mod scale))))) in
        sign ++ print_N (a / scale) ++ (if is_empty fraction then [] else code "." :: fraction)
  end.

Definition wording (f : EngineFault) : jsstring :=
  match f with
  | ReadOfNullish => lit "Cannot read properties of undefined"
  | NotAFunction => lit "is not a function"
  | NoPrimitiveValue => lit "Cannot convert object to primitive value"
  | MalformedURI => lit "URI malformed"
  end.

Definition host (in_studio : bool) : Host :=
  {| World := Script;
     aistudio :=
       if in_studio
       then Some {| hasSelectedApiKey := has_key; openSelectKey := open_picker |}
       else None;
     new_GoogleGenAI := fun w => (Ok tt, w);
     generateContent := generate;
     fetch_json := lookup;
     Number_toString := print_number;
     fault_message := wording |}.

(** A run starts with no call made yet. *)
Definition start (in_studio : bool) (w : Script) (p : App.State)
  : Sys (host in_studio) App.State :=
  {| world := (w : World (host in_studio)); calls := []; page := p |}.

End Scripted.

(** A host with no way to a key: in the studio, where the check answers
    no and the picker is dismissed with an error, and with a client that
    cannot be built without a key. *)
Module Keyless.

Definition dismissed : Thrown := Error (lit "The key selection was dismissed.").

Definition no_key : Thrown := Error (lit "An API Key must be set when running in a browser").

Definition host : Host :=
  {| World := unit;
     aistudio :=
       Some {| hasSelectedApiKey := fun w => (Ok false, w);
               openSelectKey := fun w => (Throw dismissed, w) |};
     new_GoogleGenAI := fun w => (Throw no_key, w);
     generateContent := fun _ w => (Throw (Error (lit "Failed to fetch")), w);
     fetch_json := fun _ w => (Throw (Error (lit "Failed to fetch")), w);
     Number_toString := Scripted.print_number;
     fault_message := Scripted.wording |}.

Definition start (p : App.State) : Sys host App.State :=
  {| world := (tt : World host); calls := []; page := p |}.

End Keyless.

(* ================================================================== *)
(** * Properties *)
(* ================================================================== *)

Import types.

(** Unfolds the monad and the setters to plain state passing. *)
(** Reads the fields of the states that have been built so far. *)
Ltac read_state :=
  cbn [world calls page fst snd negb
       App.coords App.locationName App.date App.time App.style
       App.isLoading App.loadingStep App.result App.error] in *.

Ltac unfold_run :=
  unfold App.setCoords, App.setLocationName, App.setDate, App.setTime, App.setStyle,
         App.setIsLoading, App.setLoadingStep, App.setResult, App.setError,
         console_error, or_fault, fault, external, try_finally, try_catch,
         get_page, set_page, throw, bind, ret in *;
  read_state.

(** Case analysis on the scrutinee of the first [match] left in the goal. *)
Ltac case_step :=
  match goal with
  | |- context [match ?x with _ => _ end] => destruct x eqn:?
  end;
  cbn [world calls page fst snd] in *.

(** ** The runtime on a few inputs *)

Example JSON_parse_empty_object : JSON_parse (lit "{}") = Some (JObject []).
Proof. reflexivity. Qed.

Example JSON_parse_two_fields :
  JSON_parse (lit " {" ++ quoted "visualPrompt" ++ lit " : " ++ quoted "A crowd" ++ lit ", "
                ++ quoted "story" ++ lit ":[1, -2.50e3, null, {}]} ")
  = Some (JObject [ (lit "visualPrompt", JString (lit "A crowd"));
                    (lit "story",
                     JArray [JNumber (Finite 1 0); JNumber (Finite (-250) 1);
                             JNull; JObject []]) ]).
Proof. reflexivity. Qed.

Example JSON_parse_rejects :
  JSON_parse [] = None
  /\ JSON_parse (lit "Sorry, I can't help with that.") = None
  /\ JSON_parse (lit "[1,]") = None
  /\ JSON_parse (lit "01") = None
  /\ JSON_parse (lit "{} {}") = None.
Proof. repeat split. Qed.

Example last_key_wins :
  option_map (fun json => get json (lit "a"))
             (JSON_parse (lit "{" ++ quoted "a" ++ lit ":1," ++ quoted "a" ++ lit ":2}"))
  = Some (Some (JNumber (Finite 2 0))).
Proof. reflexivity. Qed.

Example parseInt_runs :
  parseInt (lit "3") = Some 3%Z /\ parseInt [] = None /\ parseInt (lit " -0x1F") = Some (-31)%Z
  /\ parseInt (lit "12px") = Some 12%Z /\ parseInt (lit "px") = None.
Proof. repeat split. Qed.

Example option_values_are_indices :
  map (fun idx => parseInt (App.option_value idx)) (seq 0 (length App.RECOMMENDATIONS))
  = [Some 0; Some 1; Some 2; Some 3; Some 4; Some 5]%Z.
Proof. reflexivity. Qed.

Example encodeURIComponent_runs :
  encodeURIComponent (lit "Red Fort, Delhi") = Some (lit "Red%20Fort%2C%20Delhi")
  /\ encodeURIComponent [233%N] = Some (lit "%C3%A9")
  /\ encodeURIComponent [55357%N] = None.
Proof. repeat split. Qed.

Example tiny_numbers_are_falsy :
  truthy (JNumber (Finite 2 (-324))) = false /\ truthy (JNumber (Finite 3 (-324))) = true.
Proof. split; vm_compute; reflexivity. Qed.

Lemma frame_but_name_refl (p : App.State) : App.frame_but_name p p.
Proof. repeat split. Qed.

Section MapClick.
Context {host : Host}.

Lemma split_first_frame (v : JSValue) (s : Sys host App.State) :
  (exists shown, App.split_first v s = (Ok shown, s))
  \/ (exists e, App.split_first v s = (Throw e, s)).
Proof.
  destruct v; unfold App.split_first; unfold_run; eauto.
Qed.

(** The lookup ends normally whatever the geocoder does, makes one request
    and can change the location name only. *)
Lemma handleReverseGeocode_total (c : Coordinates) (s : Sys host App.State) :
  exists s',
    App.handleReverseGeocode c s = (Ok tt, s')
    /\ App.frame_but_name (page s) (page s')
    /\ (exists url, calls s' = calls s ++ [Call_fetch url]).
Proof.
  unfold App.handleReverseGeocode. unfold_run.
  destruct (fetch_json host _ (world s)) as [[data | e] w] eqn:Hfetch;
    cbn [world calls page].
  2:{ eexists; split; [reflexivity |]. cbn. split; [apply frame_but_name_refl | eauto]. }
  destruct (truthy data).
  2:{ eexists; split; [reflexivity |]. cbn. split; [apply frame_but_name_refl | eauto]. }
  destruct (get data (lit "display_name")) as [dn |]; cbn.
  2:{ eexists; split; [reflexivity |]. cbn. split; [apply frame_but_name_refl | eauto]. }
  match goal with
  | |- context [App.split_first dn ?st] =>
      destruct (split_first_frame dn st) as [[shown H] | [e H]]; rewrite H
  end.
  - eexists; split; [reflexivity |]. cbn. split; [repeat split | eauto].
  - eexists; split; [reflexivity |]. cbn. split; [apply frame_but_name_refl | eauto].
Qed.

End MapClick.

(** C9.  Reverse geocoding never raises and never sets the error: whatever
    the geocoder answers, or if the request fails, [handleReverseGeocode]
    ends normally and changes at most the location name; so a map click
    always ends normally with the clicked coordinates set and the error
    message as it was. *)
Theorem map_click_sets_coordinates :
  forall (host : Host) (c : Coordinates) (s : Sys host App.State),
    (exists s',
        App.handleReverseGeocode c s = (Ok tt, s')
        /\ App.frame_but_name (page s) (page s'))
    /\ (exists s',
        App.handleMapClick c s = (Ok tt, s')
        /\ App.coords (page s') = c
        /\ App.error (page s') = App.error (page s)
        /\ App.result (page s') = App.result (page s)).
Proof.
  intros host c s. split.
  - destruct (handleReverseGeocode_total c s) as (s' & H & F & _). eauto.
  - unfold App.handleMapClick, App.setCoords. unfold_run.
    match goal with
    | |- context [App.handleReverseGeocode c ?st] =>
        destruct (handleReverseGeocode_total c st) as (s' & H & F & _)
    end.
    rewrite H. exists s'. split; [reflexivity |].
    destruct F as (Hc & _ & _ & _ & _ & _ & Hr & He). cbn in *.
    repeat split; congruence.
Qed.

(** C8.  A search whose lookup returns no result: the error "Location not
    found." is set, and the coordinates and the location name stay as they
    were (the run ends normally with the loading indicator off). *)
Theorem search_without_results :
  forall (host : Host) (s : Sys host App.State) (q : jsstring) (w : World host),
    is_empty (trim (App.locationName (page s))) = false ->
    encodeURIComponent (App.locationName (page s)) = Some q ->
    fetch_json host (lit "https://nominatim.openstreetmap.org/search?format=json&q=" ++ q)
               (world s) = (Ok (JArray []), w) ->
    exists s',
      App.handleSearch s = (Ok tt, s')
      /\ App.error (page s') = Some (lit "Location not found.")
      /\ App.coords (page s') = App.coords (page s)
      /\ App.locationName (page s') = App.locationName (page s)
      /\ App.isLoading (page s') = false
      /\ App.loadingStep (page s') = []
      /\ world s' = w.
Proof.
  intros host s q w Hquery Hq Hfetch.
  unfold App.handleSearch, App.has_results. unfold_run.
  rewrite Hquery, Hq. cbn [world calls page]. rewrite Hfetch. cbn.
  eexists. split; [reflexivity |]. cbn. repeat split.
Qed.

(** C8, run: the first render's query, and a geocoder that knows no such place. *)
Lemma search_without_results_witness :
  exists s',
    App.handleSearch
      (Scripted.start true
         {| Scripted.keys := []; Scripted.replies := []; Scripted.lookups := [Ok (JArray [])] |}
         App.initial) = (Ok tt, s')
    /\ App.error (page s') = Some (lit "Location not found.")
    /\ App.coords (page s') = App.DEFAULT_COORDS
    /\ App.locationName (page s') = lit "Red Fort, Delhi".
Proof.
  destruct (@search_without_results (Scripted.host true)
              (Scripted.start true
                 {| Scripted.keys := []; Scripted.replies := [];
                    Scripted.lookups := [Ok (JArray [])] |}
                 App.initial)
              (lit "Red%20Fort%2C%20Delhi")
              {| Scripted.keys := []; Scripted.replies := []; Scripted.lookups := [] |})
    as (s' & H & He & Hc & Hn & _).
  - reflexivity.
  - reflexivity.
  - reflexivity.
  - exists s'. repeat split; assumption.
Defined.

(** C7.  Selecting a preset sets the location name, the coordinates, the
    date, the time and the style from it in one step, and clears the
    result and the error; nothing else changes and no call is made. *)
Theorem preset_selection :
  forall (host : Host) (s : Sys host App.State) (idx : nat) (rec : App.Preset.t),
    nth_error App.RECOMMENDATIONS idx = Some rec ->
    App.handleRecommendationChange (App.option_value idx) s =
      (Ok tt,
       {| world := world s;
          calls := calls s;
          page := {| App.coords := App.Preset.coords rec;
                     App.locationName := App.Preset.locationName rec;
                     App.date := App.Preset.date rec;
                     App.time := App.Preset.time rec;
                     App.style := App.Preset.style rec;
                     App.isLoading := App.isLoading (page s);
                     App.loadingStep := App.loadingStep (page s);
                     App.result := None;
                     App.error := None |} |}).
Proof.
  intros host s idx rec Hrec.
  do 6 (destruct idx as [| idx];
        [ cbn in Hrec; injection Hrec as <-; reflexivity | ]).
  cbn in Hrec. destruct idx; discriminate.
Qed.

(** C7, run: the fourth option, chosen on the first render. *)
Lemma preset_selection_witness :
  exists s',
    App.handleRecommendationChange (lit "3")
      (Scripted.start false
         {| Scripted.keys := []; Scripted.replies := []; Scripted.lookups := [] |}
         App.initial) = (Ok tt, s')
    /\ App.locationName (page s') = lit "Isla Nublar (Costa Rica)"
    /\ App.coords (page s') = {| lat := Finite 97489 (-4); lng := Finite (-837534) (-4) |}
    /\ App.date (page s') = lit "-65000000-01-01"
    /\ App.time (page s') = lit "12:00"
    /\ App.style (page s') = CINEMATIC
    /\ App.result (page s') = None
    /\ App.error (page s') = None.
Proof.
  eexists. split.
  - apply (@preset_selection (Scripted.host false) _ 3). reflexivity.
  - cbn. repeat split.
Defined.

(** ** The image step *)

Import geminiService.

Lemma scan_parts_none (ps : list GenAI.Part) (imageUrl : jsstring) :
  (forall p, In p ps -> inline_bytes p = None) -> scan_parts ps imageUrl = imageUrl.
Proof.
  induction ps as [| p ps IH]; intros Hnone; cbn.
  - reflexivity.
  - rewrite (Hnone p (or_introl eq_refl)). apply IH.
    intros q Hq. apply Hnone. right. exact Hq.
Qed.

Lemma scan_parts_first (before after : list GenAI.Part) (p : GenAI.Part)
      (d imageUrl : jsstring) :
  (forall q, In q before -> inline_bytes q = None) ->
  inline_bytes p = Some d ->
  scan_parts (before ++ p :: after) imageUrl = lit "data:image/png;base64," ++ d.
Proof.
  induction before as [| q before IH]; intros Hnone Hp.
  - cbn [app scan_parts]. rewrite Hp. reflexivity.
  - cbn [app scan_parts]. rewrite (Hnone q (or_introl eq_refl)). apply IH.
    + intros r Hr. apply Hnone. right. exact Hr.
    + exact Hp.
Qed.

(** Either no part carries bytes, or there is a first one that does. *)
Lemma first_inline_part (ps : list GenAI.Part) :
  (forall p, In p ps -> inline_bytes p = None)
  \/ (exists before p after d,
        ps = before ++ p :: after
        /\ (forall q, In q before -> inline_bytes q = None)
        /\ inline_bytes p = Some d).
Proof.
  induction ps as [| p ps IH].
  - left. intros p [].
  - destruct (inline_bytes p) as [d |] eqn:Hp.
    + right. exists [], p, ps, d. repeat split; [intros q [] | exact Hp].
    + destruct IH as [Hnone | (before & p' & after & d & -> & Hnone & Hp')].
      * left. intros q [<- | Hq]; [exact Hp | apply Hnone, Hq].
      * right. exists (p :: before), p', after, d. repeat split; [| exact Hp'].
        intros q [<- | Hq]; [exact Hp | apply Hnone, Hq].
Qed.

Section Snapshot.
Context {host : Host} {Page : Type}.

(** What [generateSnapshot] returns once the client is built, the prompt
    composed and the request answered. *)
Lemma generateSnapshot_answered
      (request : GenerationRequest) (context : VisualContext) (s : Sys host Page)
      (scene : jsstring) (w1 w2 : World host) (response : GenAI.GenerateContentResponse) :
  new_GoogleGenAI host (world s) = (Ok tt, w1) ->
  ToString host (visualPrompt context) = Some scene ->
  generateContent host (snapshot_request (final_prompt scene request)) w1 = (Ok response, w2) ->
  let found := match returned_parts response with
               | Some ps => scan_parts ps []
               | None => []
               end in
  generateSnapshot request context s =
    if is_empty found then
      (Throw (Error (lit "No image data received from API.")),
       {| world := w2;
          calls := (((calls s ++ [Call_new_GoogleGenAI])
                      ++ [Call_generateContent (snapshot_request (final_prompt scene request))])
                      ++ [Call_console_error (lit "Image generation error:")]);
          page := page s |})
    else
      (Ok {| imageUrl := found;
             description := visualPrompt context;
             types.story := story context;
             promptUsed := final_prompt scene request |},
       {| world := w2;
          calls := ((calls s ++ [Call_new_GoogleGenAI])
                      ++ [Call_generateContent (snapshot_request (final_prompt scene request))]);
          page := page s |}).
Proof.
  intros Hnew Hscene Hreply found.
  unfold generateSnapshot. unfold_run.
  rewrite Hnew. cbn [world calls page]. rewrite Hscene. cbn [world calls page].
  rewrite Hreply. cbn [world calls page].
  fold found. destruct (is_empty found); reflexivity.
Qed.

End Snapshot.

(** C3.  Given an answer of the image model, [generateSnapshot] raises "No
    image data received from API." exactly when no returned part carries
    inline image bytes (an empty or an absent list of parts included), and
    otherwise returns the image of the first part that carries some. *)
Theorem snapshot_uses_first_inline_image :
  forall (host : Host) (Page : Type)
         (request : GenerationRequest) (context : VisualContext) (s : Sys host Page)
         (scene : jsstring) (w1 w2 : World host) (response : GenAI.GenerateContentResponse),
    new_GoogleGenAI host (world s) = (Ok tt, w1) ->
    ToString host (visualPrompt context) = Some scene ->
    generateContent host (snapshot_request (final_prompt scene request)) w1 = (Ok response, w2) ->
    let ps := match returned_parts response with Some ps => ps | None => [] end in
    let outcome := fst (generateSnapshot request context s) in
    (outcome = Throw (Error (lit "No image data received from API."))
     <-> (forall p, In p ps -> inline_bytes p = None))
    /\ (forall before p after d,
           ps = before ++ p :: after ->
           (forall q, In q before -> inline_bytes q = None) ->
           inline_bytes p = Some d ->
           outcome = Ok {| imageUrl := lit "data:image/png;base64," ++ d;
                           description := visualPrompt context;
                           types.story := story context;
                           promptUsed := final_prompt scene request |}).
Proof.
  intros host Page request context s scene w1 w2 response Hnew Hscene Hreply ps outcome.
  assert (Hfound : match returned_parts response with
                   | Some ps => scan_parts ps []
                   | None => []
                   end = scan_parts ps []).
  { subst ps. destruct (returned_parts response); reflexivity. }
  pose proof (generateSnapshot_answered request context s Hnew Hscene Hreply) as Hrun.
  cbv zeta in Hrun. rewrite Hfound in Hrun.
  assert (Hfirst : forall before p after d,
             ps = before ++ p :: after ->
             (forall q, In q before -> inline_bytes q = None) ->
             inline_bytes p = Some d ->
             outcome = Ok {| imageUrl := lit "data:image/png;base64," ++ d;
                             description := visualPrompt context;
                             types.story := story context;
                             promptUsed := final_prompt scene request |}).
  { intros before p after d Hps Hnone Hp. subst outcome.
    rewrite Hrun, Hps, (scan_parts_first before after p [] Hnone Hp). reflexivity. }
  split; [split |]; [| | exact Hfirst].
  - intros Hthrow.
    destruct (first_inline_part ps) as [Hnone | (before & p & after & d & Hps & Hnone & Hp)].
    + exact Hnone.
    + rewrite (Hfirst before p after d Hps Hnone Hp) in Hthrow. discriminate.
  - intros Hnone. subst outcome.
    rewrite Hrun, (scan_parts_none ps [] Hnone). reflexivity.
Qed.

(** C3, run: a reply whose first part is text and whose second and third
    parts carry bytes; the second part's bytes are used. *)
Lemma snapshot_uses_first_inline_image_witness :
  let text_part := {| GenAI.inlineData := None |} in
  let image (d : string) := {| GenAI.inlineData :=
                      Some {| GenAI.mimeType := Some (lit "image/png");
                              GenAI.data := Some (lit d) |} |} in
  let reply := {| GenAI.text := None;
                  GenAI.candidates :=
                    Some [ {| GenAI.content :=
                                Some {| GenAI.parts :=
                                          Some [text_part; image "iVBOR"%string; image "AAAA"%string] |} |} ] |} in
  let context := {| visualPrompt := JString (lit "A crowd"); story := JString (lit "Hi") |} in
  fst (generateSnapshot (App.build_request App.initial) context
         (Scripted.start true
            {| Scripted.keys := []; Scripted.replies := [Ok reply]; Scripted.lookups := [] |}
            App.initial))
  = Ok {| imageUrl := lit "data:image/png;base64,iVBOR";
          description := JString (lit "A crowd");
          types.story := JString (lit "Hi");
          promptUsed := final_prompt (lit "A crowd") (App.build_request App.initial) |}.
Proof.
  intros text_part image reply context.
  refine (proj2 (@snapshot_uses_first_inline_image (Scripted.host true) App.State
                   (App.build_request App.initial) context
                   (Scripted.start true
                      {| Scripted.keys := []; Scripted.replies := [Ok reply];
                         Scripted.lookups := [] |}
                      App.initial)
                   (lit "A crowd")
                   {| Scripted.keys := []; Scripted.replies := [Ok reply]; Scripted.lookups := [] |}
                   {| Scripted.keys := []; Scripted.replies := []; Scripted.lookups := [] |}
                   reply eq_refl eq_refl eq_refl)
                [text_part] (image "iVBOR"%string) [image "AAAA"%string] (lit "iVBOR") eq_refl _ eq_refl).
  intros q [<- | []]. reflexivity.
Defined.

(** ** The scene step *)

Lemma text_or_non_empty (t : option jsstring) (fallback : jsstring) :
  fallback <> [] -> text_or t fallback <> [].
Proof.
  intros Hf. unfold text_or. destruct t as [[| c r] |]; cbn; [exact Hf | discriminate | exact Hf].
Qed.

Lemma text_or_present (raw fallback : jsstring) :
  raw <> [] -> text_or (Some raw) fallback = raw.
Proof. destruct raw; [congruence | reflexivity]. Qed.

Lemma truthy_non_empty (t : jsstring) : t <> [] -> truthy (JString t) = true.
Proof. destruct t; [congruence | reflexivity]. Qed.

Lemma truthy_or_else (v fallback : JSValue) :
  truthy fallback = true -> truthy (or_else v fallback) = true.
Proof. intros Hf. unfold or_else. destruct (truthy v) eqn:Hv; assumption. Qed.

(** [a || "default"] is a non-empty string, or [a] itself when [a] is
    truthy and no string. *)
Lemma or_else_string (v : JSValue) (fallback : jsstring) :
  fallback <> [] ->
  non_empty_string (or_else v (JString fallback))
  \/ (or_else v (JString fallback) = v /\ truthy v = true /\ forall t, v <> JString t).
Proof.
  intros Hf. unfold or_else. destruct (truthy v) eqn:Hv.
  - destruct v as [| | b | n | t | items | props];
      try (right; split; [reflexivity | split; [reflexivity | intros t; discriminate]]).
    left. exists t. split; [reflexivity |]. destruct t; discriminate.
  - left. exists fallback. split; [reflexivity | exact Hf].
Qed.

Section Scene.
Context {host : Host} {Page : Type}.

(** What [generateVisualPrompt] returns once the client is built and the
    request answered. *)
Lemma generateVisualPrompt_answered
      (request : GenerationRequest) (s : Sys host Page)
      (w1 w2 : World host) (response : GenAI.GenerateContentResponse) :
  new_GoogleGenAI host (world s) = (Ok tt, w1) ->
  generateContent host (scene_request host request) w1 = (Ok response, w2) ->
  generateVisualPrompt request s =
    match read_scene response with
    | Some context =>
        (Ok context,
         {| world := w2;
            calls := (calls s ++ [Call_new_GoogleGenAI])
                       ++ [Call_generateContent (scene_request host request)];
            page := page s |})
    | None =>
        (Ok {| visualPrompt := JString (text_or (GenAI.text response) (lit "A historical scene."));
               story := JString (lit "Time travel successful, but the flight log is scrambled.") |},
         {| world := w2;
            calls := ((calls s ++ [Call_new_GoogleGenAI])
                        ++ [Call_generateContent (scene_request host request)])
                       ++ [Call_console_error (lit "Failed to parse JSON from Gemini Flash")];
            page := page s |})
    end.
Proof.
  intros Hnew Hreply. unfold generateVisualPrompt. unfold_run.
  rewrite Hnew. cbn [world calls page]. rewrite Hreply. cbn [world calls page].
  destruct (read_scene response); reflexivity.
Qed.

End Scene.

(** Text that the parser rejects, or reads as [null], leaves the [try] block
    by its [catch]. *)
Lemma read_scene_rejected (response : GenAI.GenerateContentResponse) (raw : jsstring) :
  GenAI.text response = Some raw -> raw <> [] ->
  JSON_parse raw = None \/ JSON_parse raw = Some JNull ->
  read_scene response = None.
Proof.
  intros Htext Hraw Hparse. unfold read_scene.
  rewrite Htext, (text_or_present _ Hraw).
  destruct Hparse as [-> | ->]; reflexivity.
Qed.

(** No text, or empty text, is read as the empty object. *)
Lemma read_scene_absent (response : GenAI.GenerateContentResponse) :
  GenAI.text response = None \/ GenAI.text response = Some [] ->
  read_scene response =
    Some {| visualPrompt := JString (lit "A historical scene.");
            story := JString (lit "Welcome to the past!") |}.
Proof.
  intros [Htext | Htext]; unfold read_scene; rewrite Htext; reflexivity.
Qed.

(** C2, as amended.  The scene step never raises once the model has
    answered.  Text that is not empty and that [JSON.parse] rejects (or
    reads as [null]) comes back as the visual description, with the
    narrative "Time travel successful, but the flight log is scrambled.";
    absent or empty text is parsed as the empty object and gets the two
    defaults instead. *)
Theorem scene_step_degrades :
  forall (host : Host) (Page : Type) (request : GenerationRequest) (s : Sys host Page)
         (w1 w2 : World host) (response : GenAI.GenerateContentResponse),
    new_GoogleGenAI host (world s) = (Ok tt, w1) ->
    generateContent host (scene_request host request) w1 = (Ok response, w2) ->
    (exists context, fst (generateVisualPrompt request s) = Ok context)
    /\ (forall raw,
           GenAI.text response = Some raw -> raw <> [] ->
           JSON_parse raw = None \/ JSON_parse raw = Some JNull ->
           fst (generateVisualPrompt request s) =
             Ok {| visualPrompt := JString raw;
                   story := JString (lit "Time travel successful, but the flight log is scrambled.") |})
    /\ (GenAI.text response = None \/ GenAI.text response = Some [] ->
        fst (generateVisualPrompt request s) =
          Ok {| visualPrompt := JString (lit "A historical scene.");
                story := JString (lit "Welcome to the past!") |}).
Proof.
  intros host Page request s w1 w2 response Hnew Hreply.
  rewrite (generateVisualPrompt_answered request s Hnew Hreply).
  split; [| split].
  - destruct (read_scene response); eexists; reflexivity.
  - intros raw Htext Hraw Hparse.
    rewrite (read_scene_rejected response Htext Hraw Hparse). cbn [fst].
    rewrite Htext, (text_or_present _ Hraw). reflexivity.
  - intros Htext. rewrite (read_scene_absent response Htext). reflexivity.
Qed.

(** C2, as amended, run: the model answers in prose. *)
Lemma scene_step_degrades_witness :
  let reply := {| GenAI.text := Some (lit "Sorry, I can't help with that.");
                  GenAI.candidates := None |} in
  fst (generateVisualPrompt (App.build_request App.initial)
         (Scripted.start true
            {| Scripted.keys := []; Scripted.replies := [Ok reply]; Scripted.lookups := [] |}
            App.initial))
  = Ok {| visualPrompt := JString (lit "Sorry, I can't help with that.");
          story := JString (lit "Time travel successful, but the flight log is scrambled.") |}.
Proof.
  intros reply.
  refine (proj1 (proj2 (@scene_step_degrades (Scripted.host true) App.State
                          (App.build_request App.initial)
                          (Scripted.start true
                             {| Scripted.keys := []; Scripted.replies := [Ok reply];
                                Scripted.lookups := [] |}
                             App.initial)
                          {| Scripted.keys := []; Scripted.replies := [Ok reply];
                             Scripted.lookups := [] |}
                          {| Scripted.keys := []; Scripted.replies := []; Scripted.lookups := [] |}
                          reply eq_refl eq_refl))
                (lit "Sorry, I can't help with that.") eq_refl _ (or_introl eq_refl)).
  discriminate.
Defined.

(** C2, as stated, fails: an empty payload does not parse, yet what comes
    back is not the raw (empty) text with the placeholder narrative but the
    two defaults. *)
Lemma empty_payload_gets_defaults :
  let reply := {| GenAI.text := Some []; GenAI.candidates := None |} in
  let returned :=
    fst (generateVisualPrompt (App.build_request App.initial)
           (Scripted.start true
              {| Scripted.keys := []; Scripted.replies := [Ok reply]; Scripted.lookups := [] |}
              App.initial)) in
  JSON_parse [] = None
  /\ returned = Ok {| visualPrompt := JString (lit "A historical scene.");
                      story := JString (lit "Welcome to the past!") |}
  /\ returned <> Ok {| visualPrompt := JString [];
                       story := JString (lit "Time travel successful, but the flight log is scrambled.") |}.
Proof.
  cbv zeta. split; [reflexivity | split; [reflexivity | discriminate]].
Qed.

(** What the [try] block returns when it returns. *)
Lemma read_scene_fields (response : GenAI.GenerateContentResponse) (context : VisualContext) :
  read_scene response = Some context ->
  exists json vp st,
    JSON_parse (text_or (GenAI.text response) (lit "{}")) = Some json
    /\ get json (lit "visualPrompt") = Some vp
    /\ get json (lit "story") = Some st
    /\ context = {| visualPrompt := or_else vp (JString (lit "A historical scene."));
                    story := or_else st (JString (lit "Welcome to the past!")) |}.
Proof.
  unfold read_scene.
  destruct (JSON_parse _) as [json |]; [| discriminate].
  destruct (get json (lit "visualPrompt")) as [vp |] eqn:Hvp; [| discriminate].
  destruct (get json (lit "story")) as [st |] eqn:Hst; [| discriminate].
  intros [= <-]. exists json, vp, st. repeat split; assumption.
Qed.

(** C10, as amended.  Once the model has answered, the scene step returns a
    context whose visual description and narrative are both truthy: never
    [undefined], [null] or the empty string.  When the reply parses to a
    value whose fields can be read, a field that is missing (read as
    [undefined]) or falsy is replaced by its fixed default, "A historical
    scene." for the description and "Welcome to the past!" for the
    narrative, and a truthy field is returned as it is.  Each of the two is
    therefore a non-empty string, unless the parsed reply holds a truthy
    value that is no string under that key, which is then passed on as it
    is. *)
Theorem scene_fields_are_truthy :
  forall (host : Host) (Page : Type) (request : GenerationRequest) (s : Sys host Page)
         (w1 w2 : World host) (response : GenAI.GenerateContentResponse),
    new_GoogleGenAI host (world s) = (Ok tt, w1) ->
    generateContent host (scene_request host request) w1 = (Ok response, w2) ->
    exists context,
      fst (generateVisualPrompt request s) = Ok context
      /\ truthy (visualPrompt context) = true
      /\ truthy (story context) = true
      /\ (non_empty_string (visualPrompt context)
          \/ passed_on response (lit "visualPrompt") (visualPrompt context))
      /\ (non_empty_string (story context)
          \/ passed_on response (lit "story") (story context))
      /\ (forall json vp st,
             JSON_parse (text_or (GenAI.text response) (lit "{}")) = Some json ->
             get json (lit "visualPrompt") = Some vp ->
             get json (lit "story") = Some st ->
             (truthy vp = false ->
              visualPrompt context = JString (lit "A historical scene."))
             /\ (truthy vp = true -> visualPrompt context = vp)
             /\ (truthy st = false ->
                 story context = JString (lit "Welcome to the past!"))
             /\ (truthy st = true -> story context = st))
      /\ (forall props,
             JSON_parse (text_or (GenAI.text response) (lit "{}")) = Some (JObject props) ->
             (own_property (lit "visualPrompt") props = None ->
              visualPrompt context = JString (lit "A historical scene."))
             /\ (own_property (lit "story") props = None ->
                 story context = JString (lit "Welcome to the past!"))).
Proof.
  intros host Page request s w1 w2 response Hnew Hreply.
  rewrite (generateVisualPrompt_answered request s Hnew Hreply).
  destruct (read_scene response) as [context |] eqn:Hread.
  - exists context. split; [reflexivity |].
    destruct (read_scene_fields response Hread) as (json & vp & st & Hjson & Hvp & Hst & ->).
    cbn [visualPrompt story].
    split; [apply truthy_or_else; reflexivity |].
    split; [apply truthy_or_else; reflexivity |].
    split; [| split; [| split]].
    + destruct (@or_else_string vp (lit "A historical scene.")) as [H | (-> & Ht & Hn)];
        [discriminate | left; exact H | right; exists json; auto].
    + destruct (@or_else_string st (lit "Welcome to the past!")) as [H | (-> & Ht & Hn)];
        [discriminate | left; exact H | right; exists json; auto].
    + intros json' vp' st' Hjson' Hvp' Hst'.
      rewrite Hjson in Hjson'. injection Hjson' as <-.
      rewrite Hvp in Hvp'. injection Hvp' as <-.
      rewrite Hst in Hst'. injection Hst' as <-.
      unfold or_else.
      repeat split; intros Ht; rewrite Ht; reflexivity.
    + intros props Hprops.
      rewrite Hjson in Hprops. injection Hprops as ->.
      cbn [get] in Hvp, Hst.
      injection Hvp as <-. injection Hst as <-.
      split; intros Hnone; rewrite Hnone; reflexivity.
  - eexists. split; [reflexivity |]. cbn [visualPrompt story].
    assert (Hraw : text_or (GenAI.text response) (lit "A historical scene.") <> []).
    { apply text_or_non_empty. discriminate. }
    split; [apply truthy_non_empty, Hraw |].
    split; [reflexivity |].
    split; [| split; [| split]].
    + left; eexists; split; [reflexivity | exact Hraw].
    + left; eexists; split; [reflexivity | discriminate].
    + intros json vp st Hjson Hvp Hst.
      unfold read_scene in Hread. rewrite Hjson, Hvp, Hst in Hread. discriminate.
    + intros props Hprops.
      unfold read_scene in Hread. rewrite Hprops in Hread. discriminate.
Qed.

(** C10, as amended, run: a reply that leaves the narrative out gets the
    description it gave and the default narrative. *)
Lemma scene_fields_are_truthy_witness :
  let reply := {| GenAI.text := Some (lit "{" ++ quoted "visualPrompt" ++ lit ":" ++ quoted "A crowd at the fort" ++ lit "}");
                  GenAI.candidates := None |} in
  exists context,
    fst (generateVisualPrompt (App.build_request App.initial)
           (Scripted.start true
              {| Scripted.keys := []; Scripted.replies := [Ok reply]; Scripted.lookups := [] |}
              App.initial)) = Ok context
    /\ truthy (visualPrompt context) = true
    /\ truthy (story context) = true
    /\ visualPrompt context = JString (lit "A crowd at the fort")
    /\ story context = JString (lit "Welcome to the past!").
Proof.
  intros reply.
  destruct (@scene_fields_are_truthy (Scripted.host true) App.State
              (App.build_request App.initial)
              (Scripted.start true
                 {| Scripted.keys := []; Scripted.replies := [Ok reply];
                    Scripted.lookups := [] |}
                 App.initial)
              {| Scripted.keys := []; Scripted.replies := [Ok reply]; Scripted.lookups := [] |}
              {| Scripted.keys := []; Scripted.replies := []; Scripted.lookups := [] |}
              reply eq_refl eq_refl)
    as (context & Hrun & Hvp & Hst & _ & _ & Hfields & Hmissing).
  destruct (Hfields (JObject [(lit "visualPrompt", JString (lit "A crowd at the fort"))])
                    (JString (lit "A crowd at the fort")) JUndefined
                    eq_refl eq_refl eq_refl)
    as (_ & Hkept & _ & _).
  destruct (Hmissing [(lit "visualPrompt", JString (lit "A crowd at the fort"))] eq_refl)
    as (_ & Hdefault).
  exists context.
  split; [exact Hrun |].
  split; [exact Hvp |].
  split; [exact Hst |].
  split; [exact (Hkept eq_refl) | exact (Hdefault eq_refl)].
Defined.

(** C10, as stated, fails: a reply that parses and holds a number where the
    description should be gets that number back, which is no string. *)
Lemma number_field_is_passed_on :
  let reply := {| GenAI.text := Some (lit "{" ++ quoted "visualPrompt" ++ lit ":42," ++ quoted "story" ++ lit ":" ++ quoted "Hi" ++ lit "}");
                  GenAI.candidates := None |} in
  fst (generateVisualPrompt (App.build_request App.initial)
         (Scripted.start true
            {| Scripted.keys := []; Scripted.replies := [Ok reply]; Scripted.lookups := [] |}
            App.initial))
  = Ok {| visualPrompt := JNumber (Finite 42 0); story := JString (lit "Hi") |}
  /\ ~ non_empty_string (JNumber (Finite 42 0)).
Proof.
  cbv zeta. split; [reflexivity |].
  intros (t & Ht & _). discriminate.
Qed.

(** ** The run *)

Import App.

(** Closes a goal [exists added, (r, s') = (r, s'') /\ ...] once the run
    has been computed: the calls added are read off the log. *)
Ltac read_log :=
  first
    [ exists []; rewrite app_nil_r; split; [reflexivity |]
    | eexists; rewrite <- ?app_assoc; split; [reflexivity |] ];
  cbn; repeat split; auto; try (right; eexists; reflexivity).

Section Steps.
Context {host : Host} {Page : Type}.

(** The key check on any page is the key check on none; it logs nothing
    and answers no, or logs the check first; it opens the picker at most
    once and makes no adapter call. *)
Lemma ensureApiKey_answers (s : Sys host Page) (r : Outcome bool) (w' : World host) :
  answers geminiService.ensureApiKey (world s) = (r, w') ->
  exists added,
    geminiService.ensureApiKey s
      = (r, {| world := w'; calls := calls s ++ added; page := page s |})
    /\ ((added = [] /\ r = Ok false) \/ exists rest, added = Call_hasSelectedApiKey :: rest)
    /\ length (filter is_picker_call added) <= 1
    /\ forallb (fun c => negb (is_adapter_call c)) added = true.
Proof.
  unfold answers, geminiService.ensureApiKey. unfold_run.
  destruct (aistudio host) as [studio |]; read_state.
  2:{ intros [= <- <-]. destruct s; read_log. }
  destruct (hasSelectedApiKey studio (world s)) as [[[|] | e] w1]; cbn [world calls page negb].
  - intros [= <- <-]. read_log.
  - destruct (openSelectKey studio w1) as [[[] | e] w2]; read_state.
    + destruct (hasSelectedApiKey studio w2) as [r2 w3]; read_state.
      intros [= <- <-]. destruct r2; read_log.
    + intros [= <- <-]. read_log.
  - intros [= <- <-]. read_log.
Qed.

(** The scene step on any page is the scene step on none, and logs no call
    to the key picker. *)
Lemma generateVisualPrompt_answers
      (request : GenerationRequest) (s : Sys host Page)
      (r : Outcome geminiService.VisualContext) (w' : World host) :
  answers (geminiService.generateVisualPrompt request) (world s) = (r, w') ->
  exists added,
    geminiService.generateVisualPrompt request s
      = (r, {| world := w'; calls := calls s ++ added; page := page s |})
    /\ forallb (fun c => negb (is_picker_call c)) added = true.
Proof.
  unfold answers, geminiService.generateVisualPrompt. unfold_run.
  destruct (new_GoogleGenAI host (world s)) as [[[] | e] w1]; read_state.
  2:{ intros [= <- <-]. read_log. }
  destruct (generateContent host _ w1) as [[response | e] w2]; read_state.
  2:{ intros [= <- <-]. read_log. }
  destruct (geminiService.read_scene response); read_state;
    intros [= <- <-]; read_log.
Qed.

(** The image step on any page is the image step on none, and logs no call
    to the key picker. *)
Lemma generateSnapshot_answers
      (request : GenerationRequest) (context : geminiService.VisualContext)
      (s : Sys host Page) (r : Outcome GeneratedImage) (w' : World host) :
  answers (geminiService.generateSnapshot request context) (world s) = (r, w') ->
  exists added,
    geminiService.generateSnapshot request context s
      = (r, {| world := w'; calls := calls s ++ added; page := page s |})
    /\ forallb (fun c => negb (is_picker_call c)) added = true.
Proof.
  unfold answers, geminiService.generateSnapshot. unfold_run.
  destruct (new_GoogleGenAI host (world s)) as [[[] | e] w1]; read_state.
  2:{ intros [= <- <-]. read_log. }
  destruct (ToString host _) as [scene |]; read_state.
  2:{ intros [= <- <-]. read_log. }
  destruct (generateContent host _ w1) as [[response | e] w2]; read_state.
  2:{ intros [= <- <-]. read_log. }
  destruct (is_empty _); read_state; intros [= <- <-]; read_log.
Qed.

End Steps.

Lemma no_picker_call (l : list Call) :
  forallb (fun c => negb (is_picker_call c)) l = true -> filter is_picker_call l = [].
Proof.
  induction l as [| c l IH]; cbn; [reflexivity |].
  destruct (is_picker_call c); cbn; [discriminate | exact IH].
Qed.

Lemma no_adapter_call (l : list Call) (c : Call) :
  forallb (fun c => negb (is_adapter_call c)) l = true ->
  In c l -> is_adapter_call c = true -> False.
Proof.
  intros Hall Hin Hc. rewrite forallb_forall in Hall.
  specialize (Hall c Hin). rewrite Hc in Hall. discriminate.
Qed.

Section Orchestrator.
Context {host : Host}.

(** The [catch] clause sets the error, and nothing else, to the message
    that [surfaced] describes. *)
Lemma report_surfaces (e : Thrown) (s : Sys host State) :
  exists msg,
    surfaced e msg
    /\ report e s
       = (Ok tt,
          {| world := world s; calls := calls s;
             page := {| coords := coords (page s); locationName := locationName (page s);
                        date := date (page s); time := time (page s);
                        style := style (page s); isLoading := isLoading (page s);
                        loadingStep := loadingStep (page s); result := result (page s);
                        error := Some msg |} |}).
Proof.
  unfold report, surfaced. unfold_run. destruct e as [[m |]]; cbn [message].
  - destruct m as [| c m]; cbn [is_empty negb andb text_or].
    + exists (lit "Failed to generate time travel snapshot.").
      split; [| reflexivity]. split; [| split].
      * intros m [= <-] Hin. discriminate.
      * intros m [= <-] Hm. congruence.
      * reflexivity.
    + destruct (includes (c :: m) (lit "Requested entity was not found")) eqn:Hin.
      * exists (lit "API Key validation failed. Please try selecting your key again.").
        split; [| reflexivity]. split; [| split].
        -- reflexivity.
        -- intros m' [= <-] _ Hin'. congruence.
        -- intros [H | H]; discriminate.
      * exists (c :: m).
        split; [| reflexivity]. split; [| split].
        -- intros m' [= <-] Hin'. congruence.
        -- intros m' [= <-] _ _. reflexivity.
        -- intros [H | H]; discriminate.
  - exists (lit "Failed to generate time travel snapshot.").
    split; [| reflexivity]. split; [| split].
    + intros m H. discriminate.
    + intros m H. discriminate.
    + reflexivity.
Qed.

End Orchestrator.

Section Outcome.
Context {host : Host}.

(** Everything a run of [handleGenerate] does: it ends normally; the calls
    it adds to the log start with the key check, open the picker at most
    once, and reach an adapter only with a key; the inputs stay, the
    loading indicator is off; and the result and the error are those of
    exactly one of three ends. *)
Lemma handleGenerate_outcome (s : Sys host State) :
  exists s' added,
    handleGenerate s = (Ok tt, s')
    /\ calls s' = calls s ++ added
    /\ (added = [] \/ exists rest, added = Call_hasSelectedApiKey :: rest)
    /\ length (filter is_picker_call added) <= 1
    /\ (forall c, In c added -> is_adapter_call c = true ->
                  exists w1, answers geminiService.ensureApiKey (world s) = (Ok true, w1))
    /\ same_inputs (page s) (page s')
    /\ isLoading (page s') = false
    /\ loadingStep (page s') = []
    /\ ((exists image,
            run_completes (world s) (build_request (page s)) image
            /\ result (page s') = Some image /\ error (page s') = None)
        \/ (key_unavailable (world s)
            /\ result (page s') = None
            /\ error (page s') = Some (lit "API Key is required to use the Time Machine."))
        \/ (exists step e msg,
               raised_in step (world s) (build_request (page s)) e
               /\ surfaced e msg
               /\ result (page s') = None /\ error (page s') = Some msg)).
Proof.
  unfold handleGenerate, generate. unfold_run.
  set (request := build_request (page s)).
  destruct (answers geminiService.ensureApiKey (world s)) as [r1 w1] eqn:Hkey.
  match goal with
  | |- context [geminiService.ensureApiKey ?s0] =>
      destruct (@ensureApiKey_answers host State s0 r1 w1 Hkey)
        as (added1 & Hrun1 & Hfirst & Hpick & Hnone)
  end.
  rewrite Hrun1. read_state.
  assert (Hstart : forall more,
             r1 <> Ok false ->
             exists rest, added1 ++ more = Call_hasSelectedApiKey :: rest).
  { intros more Hr. destruct Hfirst as [[_ ->] | (rest & ->)]; [congruence |].
    eexists. reflexivity. }
  destruct r1 as [[|] | e]; read_state.
  - (* a key is there *)
    destruct (answers (geminiService.generateVisualPrompt request) w1) as [r2 w2] eqn:Hscene.
    match goal with
    | |- context [geminiService.generateVisualPrompt request ?s1] =>
        destruct (@generateVisualPrompt_answers host State request s1 r2 w2 Hscene)
          as (added2 & Hrun2 & Hpick2)
    end.
    rewrite Hrun2. read_state.
    destruct r2 as [context | e]; read_state.
    + destruct (answers (geminiService.generateSnapshot request context) w2)
        as [r3 w3] eqn:Himage.
      match goal with
      | |- context [geminiService.generateSnapshot request context ?s2] =>
          destruct (@generateSnapshot_answers host State request context s2 r3 w3 Himage)
            as (added3 & Hrun3 & Hpick3)
      end.
      rewrite Hrun3. read_state.
      destruct r3 as [image | e]; read_state.
      * (* the run completes *)
        eexists. exists (added1 ++ added2 ++ added3). split; [reflexivity |].
        read_state.
        split; [rewrite <- !app_assoc; reflexivity |].
        split; [right; apply Hstart; discriminate |].
        split; [rewrite !filter_app, !length_app, (no_picker_call _ Hpick2),
                  (no_picker_call _ Hpick3); cbn; lia |].
        split; [intros; eauto |].
        split; [repeat split |].
        split; [reflexivity |]. split; [reflexivity |].
        left. exists image. split; [| split; reflexivity].
        exists w1, context, w2, w3. auto.
      * (* the image step raises *)
        match goal with
        | |- context [report e ?st] =>
            destruct (report_surfaces e st) as (msg & Hmsg & Hreport)
        end.
        rewrite Hreport. read_state.
        eexists. exists (added1 ++ added2 ++ added3). split; [reflexivity |].
        read_state.
        split; [rewrite <- !app_assoc; reflexivity |].
        split; [right; apply Hstart; discriminate |].
        split; [rewrite !filter_app, !length_app, (no_picker_call _ Hpick2),
                  (no_picker_call _ Hpick3); cbn; lia |].
        split; [intros; eauto |].
        split; [repeat split |].
        split; [reflexivity |]. split; [reflexivity |].
        right. right. exists Rendering, e, msg.
        split; [exists w1, context, w2, w3; auto | auto].
    + (* the scene step raises *)
      match goal with
      | |- context [report e ?st] =>
          destruct (report_surfaces e st) as (msg & Hmsg & Hreport)
      end.
      rewrite Hreport. read_state.
      eexists. exists (added1 ++ added2). split; [reflexivity |].
      read_state.
      split; [rewrite <- !app_assoc; reflexivity |].
      split; [right; apply Hstart; discriminate |].
      split; [rewrite !filter_app, !length_app, (no_picker_call _ Hpick2); cbn; lia |].
      split; [intros; eauto |].
      split; [repeat split |].
      split; [reflexivity |]. split; [reflexivity |].
      right. right. exists Analyzing, e, msg.
      split; [exists w1, w2; auto | auto].
  - (* no key *)
    eexists. exists added1. split; [reflexivity |].
    read_state.
    split; [reflexivity |].
    split; [destruct Hfirst as [[-> _] | H]; [left; reflexivity | right; exact H] |].
    split; [exact Hpick |].
    split; [intros c Hin Hc; destruct (no_adapter_call _ _ Hnone Hin Hc) |].
    split; [repeat split |].
    split; [reflexivity |]. split; [reflexivity |].
    right. left. split; [exists w1; exact Hkey | auto].
  - (* the key check raises *)
    match goal with
    | |- context [report e ?st] =>
        destruct (report_surfaces e st) as (msg & Hmsg & Hreport)
    end.
    rewrite Hreport. read_state.
    eexists. exists added1. split; [reflexivity |].
    read_state.
    split; [reflexivity |].
    split; [destruct Hfirst as [[-> _] | H]; [left; reflexivity | right; exact H] |].
    split; [exact Hpick |].
    split; [intros c Hin Hc; destruct (no_adapter_call _ _ Hnone Hin Hc) |].
    split; [repeat split |].
    split; [reflexivity |]. split; [reflexivity |].
    right. right. exists CheckingCredentials, e, msg.
    split; [exists w1; exact Hkey | auto].
Qed.

End Outcome.

Section Ends.
Context {host : Host}.

(** The three ends of a run exclude one another, and each is what it is:
    the world answers one way. *)
Lemma completes_once (w : World host) (request : GenerationRequest)
      (image image' : GeneratedImage) :
  run_completes w request image -> run_completes w request image' -> image = image'.
Proof.
  intros (w1 & c & w2 & w3 & H1 & H2 & H3) (w1' & c' & w2' & w3' & H1' & H2' & H3').
  congruence.
Qed.

Lemma completes_with_key (w : World host) (request : GenerationRequest)
      (image : GeneratedImage) :
  run_completes w request image -> key_unavailable w -> False.
Proof.
  intros (w1 & c & w2 & w3 & H1 & H2 & H3) (w1' & H1'). congruence.
Qed.

Lemma completes_or_raises (w : World host) (request : GenerationRequest)
      (image : GeneratedImage) (step : Step) (e : Thrown) :
  run_completes w request image -> raised_in step w request e -> False.
Proof.
  intros (w1 & c & w2 & w3 & H1 & H2 & H3).
  destruct step; cbn.
  - intros (w1' & H1'). congruence.
  - intros (w1' & w2' & H1' & H2'). congruence.
  - intros (w1' & c' & w2' & w3' & H1' & H2' & H3'). congruence.
Qed.

Lemma raises_with_key (w : World host) (request : GenerationRequest)
      (step : Step) (e : Thrown) :
  raised_in step w request e -> key_unavailable w -> False.
Proof.
  intros Hraised (w1' & H1'). destruct step; cbn in Hraised.
  - destruct Hraised as (w1 & H1). congruence.
  - destruct Hraised as (w1 & w2 & H1 & H2). congruence.
  - destruct Hraised as (w1 & c & w2 & w3 & H1 & H2 & H3). congruence.
Qed.

Lemma raises_once (w : World host) (request : GenerationRequest)
      (step step' : Step) (e e' : Thrown) :
  raised_in step w request e -> raised_in step' w request e' -> e = e'.
Proof.
  destruct step, step'; cbn; intros H H';
    repeat match goal with
           | H : exists _, _ |- _ => destruct H
           | H : _ /\ _ |- _ => destruct H
           end;
    congruence.
Qed.

End Ends.

(** C1, as amended.  A run of [handleGenerate] always ends normally, with
    the inputs unchanged and the loading indicator off.  It publishes a
    result exactly when the key check, the scene step and the image step
    all succeed, and then shows no error.  In every other run (no key, or
    an error raised in any step) the result is empty, whatever was
    published before, and an error message is shown. *)
Theorem failed_run_publishes_nothing :
  forall (host : Host) (s : Sys host State),
  exists s',
    handleGenerate s = (Ok tt, s')
    /\ same_inputs (page s) (page s')
    /\ isLoading (page s') = false
    /\ loadingStep (page s') = []
    /\ (forall image,
           result (page s') = Some image
           <-> run_completes (world s) (build_request (page s)) image)
    /\ (forall image, result (page s') = Some image -> error (page s') = None)
    /\ (result (page s') = None -> exists msg, error (page s') = Some msg)
    /\ (key_unavailable (world s)
        \/ (exists step e, raised_in step (world s) (build_request (page s)) e) ->
        result (page s') = None).
Proof.
  intros host s.
  destruct (handleGenerate_outcome s)
    as (s' & added & Hrun & _ & _ & _ & _ & Hsame & Hload & Hstep & Hend).
  exists s'. repeat (split; [assumption |]).
  destruct Hend as [(image & Hdone & Hres & Herr)
                   | [(Hkey & Hres & Herr) | (step & e & msg & Hraised & _ & Hres & Herr)]].
  - split; [| split; [| split]].
    + intros image'. split.
      * intros H. rewrite Hres in H. injection H as <-. exact Hdone.
      * intros H. rewrite Hres. f_equal. eapply completes_once; eassumption.
    + intros _ _. exact Herr.
    + intros H. congruence.
    + intros [Hkey | (step & e & Hraised)].
      * exfalso; eapply completes_with_key; eassumption.
      * exfalso; eapply completes_or_raises; eassumption.
  - split; [| split; [| split]].
    + intros image. split.
      * intros H. congruence.
      * intros H. exfalso; eapply completes_with_key; eassumption.
    + intros image H. congruence.
    + intros _. eauto.
    + intros _. exact Hres.
  - split; [| split; [| split]].
    + intros image. split.
      * intros H. congruence.
      * intros H. exfalso; eapply completes_or_raises; eassumption.
    + intros image H. congruence.
    + intros _. eauto.
    + intros _. exact Hres.
Qed.

(** C1, as stated, fails: outside the studio no key is available and the
    run fails, yet the image published before is gone afterwards. *)
Lemma failed_run_clears_previous_result :
  let previous := {| imageUrl := lit "data:image/png;base64,iVBOR";
                     description := JString (lit "A crowd");
                     types.story := JString (lit "Hi");
                     promptUsed := lit "A crowd" |} in
  let before := {| coords := DEFAULT_COORDS; locationName := lit "Red Fort, Delhi";
                   date := lit "1947-08-15"; time := lit "10:00"; style := JOURNALISTIC;
                   isLoading := false; loadingStep := [];
                   result := Some previous; error := None |} in
  let after :=
    page (snd (handleGenerate
                 (Scripted.start false
                    {| Scripted.keys := []; Scripted.replies := []; Scripted.lookups := [] |}
                    before))) in
  result before = Some previous
  /\ result after = None
  /\ error after = Some (lit "API Key is required to use the Time Machine.")
  /\ result after <> result before.
Proof.
  cbv zeta. repeat split. discriminate.
Qed.

(** C5, as amended.  Whichever step of the run raises an error (the key
    check, the scene step or the image step), a message containing
    "Requested entity was not found" is shown as "API Key validation
    failed. Please try selecting your key again."; any other message that
    is not empty is shown as it is; an error without a message, or with an
    empty one, is shown as "Failed to generate time travel snapshot.". *)
Theorem raised_error_is_reported :
  forall (host : Host) (s : Sys host State) (step : Step) (e : Thrown),
    raised_in step (world s) (build_request (page s)) e ->
    exists s' msg,
      handleGenerate s = (Ok tt, s')
      /\ error (page s') = Some msg
      /\ (forall m, message e = Some m ->
                    includes m (lit "Requested entity was not found") = true ->
                    msg = lit "API Key validation failed. Please try selecting your key again.")
      /\ (forall m, message e = Some m -> m <> [] ->
                    includes m (lit "Requested entity was not found") = false ->
                    msg = m)
      /\ (message e = None \/ message e = Some [] ->
          msg = lit "Failed to generate time travel snapshot.").
Proof.
  intros host s step e Hraised.
  destruct (handleGenerate_outcome s)
    as (s' & added & Hrun & _ & _ & _ & _ & _ & _ & _ & Hend).
  destruct Hend as [(image & Hdone & _)
                   | [(Hkey & _) | (step' & e' & msg & Hraised' & Hmsg & _ & Herr)]].
  - exfalso; eapply completes_or_raises; eassumption.
  - exfalso; eapply raises_with_key; eassumption.
  - assert (He : e = e') by (eapply raises_once; eassumption). subst e'.
    exists s', msg. split; [exact Hrun |]. split; [exact Herr |]. exact Hmsg.
Qed.

(** C5, as amended, run: the image model answers with no image. *)
Lemma raised_error_is_reported_witness :
  let scene := {| GenAI.text := Some (lit "The crowd gathers."); GenAI.candidates := None |} in
  let empty := {| GenAI.text := None;
                  GenAI.candidates := Some [ {| GenAI.content := Some {| GenAI.parts := Some [] |} |} ] |} in
  exists s',
    handleGenerate
      (Scripted.start true
         {| Scripted.keys := [true]; Scripted.replies := [Ok scene; Ok empty];
            Scripted.lookups := [] |}
         initial) = (Ok tt, s')
    /\ error (page s') = Some (lit "No image data received from API.").
Proof.
  intros scene empty.
  destruct (@raised_error_is_reported (Scripted.host true)
              (Scripted.start true
                 {| Scripted.keys := [true]; Scripted.replies := [Ok scene; Ok empty];
                    Scripted.lookups := [] |}
                 initial)
              Rendering (Error (lit "No image data received from API.")))
    as (s' & msg & Hrun & Herr & _ & Hplain & _).
  - cbn. do 4 eexists. repeat split.
  - exists s'. split; [exact Hrun |]. rewrite Herr. f_equal.
    apply (Hplain (lit "No image data received from API.")); [reflexivity | discriminate | reflexivity].
Defined.

(** C5, as stated, fails: the error is raised by the scene request, during
    Analyzing, with no image request made; it is remapped all the same and
    its own message is not shown. *)
Lemma analyzing_error_is_remapped :
  let lost := Error (lit "Requested entity was not found.") in
  let start :=
    Scripted.start true
      {| Scripted.keys := [true]; Scripted.replies := [Throw lost]; Scripted.lookups := [] |}
      initial in
  let after := snd (handleGenerate start) in
  raised_in Analyzing (world start) (build_request (page start)) lost
  /\ calls after
     = [Call_hasSelectedApiKey; Call_new_GoogleGenAI;
        Call_generateContent
          (geminiService.scene_request (Scripted.host true) (build_request initial))]
  /\ error (page after)
     = Some (lit "API Key validation failed. Please try selecting your key again.")
  /\ error (page after) <> message lost.
Proof.
  cbv zeta. split; [| split; [| split]].
  - cbn. do 2 eexists. split; reflexivity.
  - reflexivity.
  - reflexivity.
  - discriminate.
Qed.

(** C4.  The run checks for a key before anything else: the calls it makes
    start with the has-key check, the picker is opened at most once, and an
    adapter is called only once the check answered yes.  When the first
    check answers no, the picker is opened once and the check is made
    again, its answer being the answer.  With the second answer no, or
    outside the studio, the run ends with "API Key is required to use the
    Time Machine." and no adapter call. *)
Theorem credential_guard :
  forall (host : Host) (s : Sys host State),
    (exists added,
        calls (snd (handleGenerate s)) = calls s ++ added
        /\ (added = [] \/ exists rest, added = Call_hasSelectedApiKey :: rest)
        /\ length (filter is_picker_call added) <= 1
        /\ (forall c, In c added -> is_adapter_call c = true ->
                      exists w1, answers geminiService.ensureApiKey (world s) = (Ok true, w1)))
    /\ (forall (studio : AIStudio (World host)) (w1 w2 w3 : World host) (again : bool),
           aistudio host = Some studio ->
           hasSelectedApiKey studio (world s) = (Ok false, w1) ->
           openSelectKey studio w1 = (Ok tt, w2) ->
           hasSelectedApiKey studio w2 = (Ok again, w3) ->
           geminiService.ensureApiKey s
           = (Ok again,
              {| world := w3;
                 calls := calls s ++ [Call_hasSelectedApiKey; Call_openSelectKey;
                                      Call_hasSelectedApiKey];
                 page := page s |}))
    /\ (forall (studio : AIStudio (World host)) (w1 w2 w3 : World host),
           aistudio host = Some studio ->
           hasSelectedApiKey studio (world s) = (Ok false, w1) ->
           openSelectKey studio w1 = (Ok tt, w2) ->
           hasSelectedApiKey studio w2 = (Ok false, w3) ->
           exists s',
             handleGenerate s = (Ok tt, s')
             /\ calls s' = calls s ++ [Call_hasSelectedApiKey; Call_openSelectKey;
                                       Call_hasSelectedApiKey]
             /\ error (page s') = Some (lit "API Key is required to use the Time Machine.")
             /\ result (page s') = None)
    /\ (aistudio host = None ->
        exists s',
          handleGenerate s = (Ok tt, s')
          /\ calls s' = calls s
          /\ error (page s') = Some (lit "API Key is required to use the Time Machine.")
          /\ result (page s') = None).
Proof.
  intros host s. split; [| split; [| split]].
  - destruct (handleGenerate_outcome s)
      as (s' & added & Hrun & Hcalls & Hfirst & Hpick & Hadapter & _).
    exists added. rewrite Hrun. cbn [snd]. auto.
  - intros studio w1 w2 w3 again Hstudio Hno Hopen Hagain.
    unfold geminiService.ensureApiKey. unfold_run.
    rewrite Hstudio. read_state. rewrite Hno. read_state.
    rewrite Hopen. read_state. rewrite Hagain. read_state.
    rewrite <- !app_assoc. reflexivity.
  - intros studio w1 w2 w3 Hstudio Hno Hopen Hagain.
    unfold handleGenerate, generate, geminiService.ensureApiKey. unfold_run.
    rewrite Hstudio. read_state. rewrite Hno. read_state.
    rewrite Hopen. read_state. rewrite Hagain. read_state.
    eexists. split; [reflexivity |]. cbn. rewrite <- !app_assoc. repeat split.
  - intros Hnone.
    unfold handleGenerate, generate, geminiService.ensureApiKey. unfold_run.
    rewrite Hnone. read_state.
    eexists. split; [reflexivity |]. cbn. repeat split.
Qed.

(** C4, run: in the studio, with no key before and none after the picker. *)
Lemma credential_guard_witness :
  exists s',
    handleGenerate
      (Scripted.start true
         {| Scripted.keys := [false; false]; Scripted.replies := []; Scripted.lookups := [] |}
         initial) = (Ok tt, s')
    /\ calls s' = [Call_hasSelectedApiKey; Call_openSelectKey; Call_hasSelectedApiKey]
    /\ error (page s') = Some (lit "API Key is required to use the Time Machine.")
    /\ result (page s') = None.
Proof.
  refine (proj1 (proj2 (proj2 (@credential_guard (Scripted.host true)
            (Scripted.start true
               {| Scripted.keys := [false; false]; Scripted.replies := [];
                  Scripted.lookups := [] |}
               initial))))
            {| hasSelectedApiKey := Scripted.has_key; openSelectKey := Scripted.open_picker |}
            {| Scripted.keys := [false]; Scripted.replies := []; Scripted.lookups := [] |}
            {| Scripted.keys := [false]; Scripted.replies := []; Scripted.lookups := [] |}
            {| Scripted.keys := []; Scripted.replies := []; Scripted.lookups := [] |}
            eq_refl eq_refl eq_refl eq_refl).
Defined.

Lemma includes_app_right (before s sub : jsstring) :
  includes s sub = true -> includes (before ++ s) sub = true.
Proof.
  intros H. induction before as [| c before IH]; [exact H |].
  cbn [app includes]. rewrite IH. apply orb_true_r.
Qed.

(** A reply with both fields as non-empty strings is read as it is. *)
Lemma read_scene_two_fields (response : GenAI.GenerateContentResponse)
      (json : JSValue) (vp st : jsstring) :
  JSON_parse (text_or (GenAI.text response) (lit "{}")) = Some json ->
  get json (lit "visualPrompt") = Some (JString vp) -> vp <> [] ->
  get json (lit "story") = Some (JString st) -> st <> [] ->
  geminiService.read_scene response
  = Some {| geminiService.visualPrompt := JString vp; geminiService.story := JString st |}.
Proof.
  intros Hjson Hvp Hvp' Hst Hst'. unfold geminiService.read_scene.
  rewrite Hjson, Hvp, Hst. unfold or_else.
  rewrite (truthy_non_empty Hvp'), (truthy_non_empty Hst'). reflexivity.
Qed.

(** C6.  Scenario A: for the request of India's Independence in the
    Journalistic style, with a key available, a scene step that returns a
    description [vp] and a narrative [st], and an image reply with a part
    that carries bytes, the run publishes an image whose URL is a non-empty
    PNG data URL, whose description is [vp], whose story is [st], and whose
    prompt is the one combined prompt: [vp], the style label, the fixed
    quality and camera lines; it contains "Photojournalism". *)
Theorem scenario_A_publishes :
  forall (host : Host) (s : Sys host State)
         (w1 w2 w3 w4 : World host) (vp st : jsstring)
         (reply : GenAI.GenerateContentResponse)
         (ps : list GenAI.Part) (p : GenAI.Part) (d : jsstring),
    let request :=
      {| location := {| name := lit "Red Fort, Delhi";
                        types.coords := {| lat := Finite 286562 (-4);
                                           lng := Finite 772410 (-4) |} |};
         types.date := lit "1947-08-15";
         types.time := Some (lit "08:30");
         types.style := JOURNALISTIC |} in
    build_request (page s) = request ->
    answers geminiService.ensureApiKey (world s) = (Ok true, w1) ->
    answers (geminiService.generateVisualPrompt request) w1
    = (Ok {| geminiService.visualPrompt := JString vp; geminiService.story := JString st |},
       w2) ->
    new_GoogleGenAI host w2 = (Ok tt, w3) ->
    generateContent host
      (geminiService.snapshot_request (geminiService.final_prompt vp request)) w3
    = (Ok reply, w4) ->
    geminiService.returned_parts reply = Some ps ->
    In p ps -> geminiService.inline_bytes p = Some d ->
    exists s' image bytes,
      handleGenerate s = (Ok tt, s')
      /\ result (page s') = Some image
      /\ error (page s') = None
      /\ imageUrl image = lit "data:image/png;base64," ++ bytes
      /\ bytes <> []
      /\ startsWith (imageUrl image) (lit "data:image/") = true
      /\ description image = JString vp
      /\ types.story image = JString st
      /\ promptUsed image
         = unlines
             [ [];
               lit "    " ++ vp;
               lit "    ";
               lit "    Style: Photojournalism.";
               lit "    Quality: High resolution, photorealistic, 8k, detailed textures.";
               lit "    Camera: Accurate to the era if vintage, or modern high-end capture if realistic.";
               lit "  " ]
      /\ includes (promptUsed image) (lit "Photojournalism") = true.
Proof.
  intros host s w1 w2 w3 w4 vp st reply ps p d request
         Hrequest Hkey Hscene Hnew Hreply Hparts Hin Hbytes.
  destruct (first_inline_part ps)
    as [Hnone | (before & first & after & bytes & Hps & Hbefore & Hfirst)].
  { rewrite (Hnone p Hin) in Hbytes. discriminate. }
  assert (Hsome : bytes <> []).
  { unfold geminiService.inline_bytes in Hfirst.
    destruct (GenAI.inlineData first) as [blob |]; [| discriminate].
    destruct (GenAI.data blob) as [d' |]; [| discriminate].
    destruct d'; [discriminate |]. injection Hfirst as <-. discriminate. }
  unfold handleGenerate, generate. unfold_run. rewrite Hrequest.
  match goal with
  | |- context [geminiService.ensureApiKey ?s0] =>
      destruct (@ensureApiKey_answers host State s0 _ _ Hkey) as (added1 & Hrun1 & _)
  end.
  rewrite Hrun1. read_state.
  match goal with
  | |- context [geminiService.generateVisualPrompt request ?s1] =>
      destruct (@generateVisualPrompt_answers host State request s1 _ _ Hscene)
        as (added2 & Hrun2 & _)
  end.
  rewrite Hrun2. read_state.
  match goal with
  | |- context [geminiService.generateSnapshot request ?c ?s2] =>
      rewrite (@generateSnapshot_answered host State request c s2 vp w3 w4 reply
                 Hnew eq_refl Hreply)
  end.
  rewrite Hparts, Hps, (scan_parts_first before after first [] Hbefore Hfirst).
  change (is_empty (lit "data:image/png;base64," ++ bytes)) with false.
  cbv iota. read_state.
  eexists. eexists. exists bytes. split; [reflexivity |].
  read_state. cbn [imageUrl description types.story promptUsed].
  split; [reflexivity |]. split; [reflexivity |]. split; [reflexivity |].
  split; [exact Hsome |]. split; [reflexivity |].
  split; [reflexivity |]. split; [reflexivity |]. split; [reflexivity |].
  change (geminiService.final_prompt vp request)
    with ((10%N :: lit "    " ++ vp)
            ++ unlines
                 [ [];
                   lit "    ";
                   lit "    Style: Photojournalism.";
                   lit "    Quality: High resolution, photorealistic, 8k, detailed textures.";
                   lit "    Camera: Accurate to the era if vintage, or modern high-end capture if realistic.";
                   lit "  " ]).
  apply includes_app_right. reflexivity.
Qed.

(** C6, run: the scripted studio has a key, the scene model answers with
    the two fields and the image model with one part of bytes. *)
Lemma scenario_A_publishes_witness :
  let scene :=
    {| GenAI.text :=
         Some (lit "{" ++ quoted "visualPrompt" ++ lit ":" ++ quoted "A crowd at the fort"
                 ++ lit "," ++ quoted "story" ++ lit ":" ++ quoted "Freedom at midnight"
                 ++ lit "}");
       GenAI.candidates := None |} in
  let picture :=
    {| GenAI.text := None;
       GenAI.candidates :=
         Some [ {| GenAI.content :=
                     Some {| GenAI.parts :=
                               Some [ {| GenAI.inlineData :=
                                           Some {| GenAI.mimeType := Some (lit "image/png");
                                                   GenAI.data := Some (lit "iVBOR") |} |} ] |} |} ] |} in
  let before :=
    {| coords := {| lat := Finite 286562 (-4); lng := Finite 772410 (-4) |};
       locationName := lit "Red Fort, Delhi";
       date := lit "1947-08-15"; time := lit "08:30"; style := JOURNALISTIC;
       isLoading := false; loadingStep := []; result := None; error := None |} in
  exists s' image,
    handleGenerate
      (Scripted.start true
         {| Scripted.keys := [true]; Scripted.replies := [Ok scene; Ok picture];
            Scripted.lookups := [] |}
         before) = (Ok tt, s')
    /\ result (page s') = Some image
    /\ startsWith (imageUrl image) (lit "data:image/") = true
    /\ description image = JString (lit "A crowd at the fort")
    /\ types.story image = JString (lit "Freedom at midnight")
    /\ includes (promptUsed image) (lit "Photojournalism") = true.
Proof.
  intros scene picture before.
  destruct (@scenario_A_publishes (Scripted.host true)
              (Scripted.start true
                 {| Scripted.keys := [true]; Scripted.replies := [Ok scene; Ok picture];
                    Scripted.lookups := [] |}
                 before)
              {| Scripted.keys := []; Scripted.replies := [Ok scene; Ok picture];
                 Scripted.lookups := [] |}
              {| Scripted.keys := []; Scripted.replies := [Ok picture]; Scripted.lookups := [] |}
              {| Scripted.keys := []; Scripted.replies := [Ok picture]; Scripted.lookups := [] |}
              {| Scripted.keys := []; Scripted.replies := []; Scripted.lookups := [] |}
              (lit "A crowd at the fort") (lit "Freedom at midnight") picture
              [ {| GenAI.inlineData :=
                     Some {| GenAI.mimeType := Some (lit "image/png");
                             GenAI.data := Some (lit "iVBOR") |} |} ]
              {| GenAI.inlineData :=
                   Some {| GenAI.mimeType := Some (lit "image/png");
                           GenAI.data := Some (lit "iVBOR") |} |}
              (lit "iVBOR")
              eq_refl eq_refl eq_refl eq_refl eq_refl eq_refl (or_introl eq_refl) eq_refl)
    as (s' & image & bytes & Hrun & Hres & _ & _ & _ & Hurl & Hdesc & Hstory & _ & Hincl).
  exists s', image. repeat split; assumption.
Defined.

(* ================================================================== *)
(** * Further properties of the handlers and the service *)
(* ================================================================== *)

(** ** Strings *)

Lemma trimStart_blank (s : jsstring) :
  forallb is_white_space s = true -> trimStart s = [].
Proof.
  induction s as [| c s IH]; cbn; [reflexivity |].
  destruct (is_white_space c); cbn; [exact IH | discriminate].
Qed.

Lemma trim_blank (s : jsstring) : forallb is_white_space s = true -> trim s = [].
Proof.
  intros H. unfold trim, trimEnd. rewrite (trimStart_blank s H). reflexivity.
Qed.

Lemma startsWith_self (s rest : jsstring) : startsWith (s ++ rest) s = true.
Proof.
  induction s as [| c s IH]; cbn; [destruct rest; reflexivity |].
  rewrite N.eqb_refl. exact IH.
Qed.

Lemma startsWith_app (a b sub : jsstring) :
  startsWith a sub = true -> startsWith (a ++ b) sub = true.
Proof.
  revert a. induction sub as [| p sub IH]; intros a H; [destruct (a ++ b); reflexivity |].
  destruct a as [| c a]; cbn in *; [discriminate |].
  apply andb_true_iff in H. destruct H as [Hc Hrest].
  rewrite Hc. cbn. apply IH, Hrest.
Qed.

Lemma includes_app_left (a b sub : jsstring) :
  includes a sub = true -> includes (a ++ b) sub = true.
Proof.
  induction a as [| c a IH]; intros H.
  - cbn in H. rewrite orb_false_r in H.
    destruct sub; [| discriminate]. destruct b; reflexivity.
  - cbn [includes] in H. apply orb_true_iff in H.
    change ((c :: a) ++ b) with (c :: (a ++ b)). cbn [includes].
    apply orb_true_iff. destruct H as [H | H].
    + left. exact (startsWith_app (c :: a) b sub H).
    + right. apply IH, H.
Qed.

(** A text found in one line is found in the lines joined. *)
Lemma includes_unlines (ls : list jsstring) (l sub : jsstring) :
  In l ls -> includes l sub = true -> includes (unlines ls) sub = true.
Proof.
  induction ls as [| l0 ls IH]; intros Hin Hsub; [destruct Hin |].
  destruct ls as [| l1 ls].
  - destruct Hin as [<- | []]. exact Hsub.
  - change (unlines (l0 :: l1 :: ls)) with (l0 ++ 10%N :: unlines (l1 :: ls)).
    destruct Hin as [<- | Hin].
    + apply includes_app_left, Hsub.
    + apply includes_app_right.
      change (10%N :: unlines (l1 :: ls)) with ([10%N] ++ unlines (l1 :: ls)).
      apply includes_app_right, IH; assumption.
Qed.

(** The text before the first separator holds no separator. *)
Lemma split_head_no_separator (sep : N) (s : jsstring) :
  includes (split_head sep s) [sep] = false.
Proof.
  induction s as [| c s IH]; cbn; [reflexivity |].
  destruct (N.eqb c sep) eqn:Hc; cbn; [reflexivity |].
  rewrite IH, N.eqb_sym, Hc. reflexivity.
Qed.

Lemma is_positive_length (k : nat) : is_positive (of_nat (S k)) = true.
Proof. reflexivity. Qed.

(** ** Searching for a place *)

(** X1.  A query of white space only (the empty query included) is not
    looked up: nothing is requested and nothing changes, the loading
    indicator and the error included. *)
Theorem blank_search_does_nothing :
  forall (host : Host) (s : Sys host State),
    forallb is_white_space (locationName (page s)) = true ->
    handleSearch s = (Ok tt, s).
Proof.
  intros host s Hblank. unfold handleSearch. unfold_run.
  rewrite (trim_blank _ Hblank). reflexivity.
Qed.

(** X1, run: a box that holds two spaces and a no-break space. *)
Lemma blank_search_does_nothing_witness :
  let s := Scripted.start true
             {| Scripted.keys := []; Scripted.replies := [];
                Scripted.lookups := [Ok (JArray [])] |}
             {| coords := DEFAULT_COORDS; locationName := [32; 32; 160]%N;
                date := lit "1947-08-15"; time := lit "10:00"; style := JOURNALISTIC;
                isLoading := false; loadingStep := []; result := None; error := None |} in
  handleSearch s = (Ok tt, s).
Proof.
  intros s. apply (@blank_search_does_nothing (Scripted.host true) s). reflexivity.
Defined.

(** X2.  A search whose lookup answers with a list: only the first entry is
    read.  Its [lat] and [lon] are parsed into the coordinates and the text
    of its [display_name] before the first comma becomes the location
    name, which therefore holds no comma.  One request is made, the loading
    indicator ends off, and the error message is left as it was: a
    successful search does not clear an earlier error. *)
Theorem search_takes_first_result :
  forall (host : Host) (s : Sys host State) (q : jsstring) (w : World host)
         (first : JSValue) (others : list JSValue) (la lo dn : jsstring),
    is_empty (trim (locationName (page s))) = false ->
    encodeURIComponent (locationName (page s)) = Some q ->
    fetch_json host (search_url q) (world s) = (Ok (JArray (first :: others)), w) ->
    get first (lit "lat") = Some (JString la) ->
    get first (lit "lon") = Some (JString lo) ->
    get first (lit "display_name") = Some (JString dn) ->
    handleSearch s
    = (Ok tt,
       {| world := w;
          calls := calls s ++ [Call_fetch (search_url q)];
          page := {| coords := {| lat := parseFloat la; lng := parseFloat lo |};
                     locationName := split_head (code ",") dn;
                     date := date (page s); time := time (page s); style := style (page s);
                     isLoading := false; loadingStep := [];
                     result := result (page s); error := error (page s) |} |})
    /\ includes (split_head (code ",") dn) (lit ",") = false.
Proof.
  intros host s q w first others la lo dn Hquery Hq Hfetch Hlat Hlon Hname.
  split; [| apply split_head_no_separator].
  unfold handleSearch, has_results, parse_float, split_first, search_url in *. unfold_run.
  rewrite Hquery, Hq. read_state. rewrite Hfetch. read_state.
  cbn [truthy get_length greater_than_zero ToNumber option_map length].
  rewrite is_positive_length. read_state.
  cbn [get_first]. rewrite Hlat. read_state. cbn [ToString]. read_state.
  rewrite Hlon. read_state. rewrite Hname. read_state.
  reflexivity.
Qed.

(** X2, run: the geocoder knows two places called Agra. *)
Lemma search_takes_first_result_witness :
  let place (la lo dn : string) :=
    JObject [ (lit "lat", JString (lit la)); (lit "lon", JString (lit lo));
              (lit "display_name", JString (lit dn)) ] in
  let found := JArray [ place "27.1752554" "78.0098161" "Agra, Uttar Pradesh, India";
                        place "40.4195" "-3.6900" "Agra, Madrid" ]%string in
  let before := {| coords := DEFAULT_COORDS; locationName := lit "Agra";
                   date := lit "1947-08-15"; time := lit "10:00"; style := JOURNALISTIC;
                   isLoading := false; loadingStep := []; result := None;
                   error := Some (lit "Location not found.") |} in
  exists s',
    handleSearch
      (Scripted.start true
         {| Scripted.keys := []; Scripted.replies := []; Scripted.lookups := [Ok found] |}
         before) = (Ok tt, s')
    /\ coords (page s') = {| lat := Finite 271752554 (-7); lng := Finite 780098161 (-7) |}
    /\ locationName (page s') = lit "Agra"
    /\ error (page s') = Some (lit "Location not found.").
Proof.
  intros place found before.
  eexists. split.
  - refine (proj1 (@search_takes_first_result (Scripted.host true)
                     (Scripted.start true
                        {| Scripted.keys := []; Scripted.replies := [];
                           Scripted.lookups := [Ok found] |}
                        before)
                     (lit "Agra")
                     {| Scripted.keys := []; Scripted.replies := []; Scripted.lookups := [] |}
                     (place "27.1752554" "78.0098161" "Agra, Uttar Pradesh, India")%string
                     [place "40.4195" "-3.6900" "Agra, Madrid"]%string
                     (lit "27.1752554") (lit "78.0098161") (lit "Agra, Uttar Pradesh, India")
                     eq_refl eq_refl eq_refl eq_refl eq_refl eq_refl)).
  - cbn. repeat split.
Defined.

(** X3.  A search whose request fails (the network, or a reply that is not
    JSON): the error "Could not find location." is set, the coordinates and
    the location name stay, and the loading indicator ends off. *)
Theorem failed_search_is_reported :
  forall (host : Host) (s : Sys host State) (q : jsstring) (e : Thrown) (w : World host),
    is_empty (trim (locationName (page s))) = false ->
    encodeURIComponent (locationName (page s)) = Some q ->
    fetch_json host (search_url q) (world s) = (Throw e, w) ->
    handleSearch s
    = (Ok tt,
       {| world := w;
          calls := calls s ++ [Call_fetch (search_url q)];
          page := {| coords := coords (page s); locationName := locationName (page s);
                     date := date (page s); time := time (page s); style := style (page s);
                     isLoading := false; loadingStep := [];
                     result := result (page s);
                     error := Some (lit "Could not find location.") |} |}).
Proof.
  intros host s q e w Hquery Hq Hfetch.
  unfold handleSearch, search_url in *. unfold_run.
  rewrite Hquery, Hq. read_state. rewrite Hfetch. read_state. reflexivity.
Qed.

(** X3, run: the geocoder cannot be reached. *)
Lemma failed_search_is_reported_witness :
  exists s',
    handleSearch
      (Scripted.start true
         {| Scripted.keys := []; Scripted.replies := []; Scripted.lookups := [] |}
         initial) = (Ok tt, s')
    /\ error (page s') = Some (lit "Could not find location.")
    /\ coords (page s') = DEFAULT_COORDS
    /\ locationName (page s') = lit "Red Fort, Delhi".
Proof.
  eexists. split.
  - apply (@failed_search_is_reported (Scripted.host true)
             (Scripted.start true
                {| Scripted.keys := []; Scripted.replies := []; Scripted.lookups := [] |}
                initial)
             (lit "Red%20Fort%2C%20Delhi") (Error (lit "Failed to fetch"))
             {| Scripted.keys := []; Scripted.replies := []; Scripted.lookups := [] |});
      reflexivity.
  - cbn. repeat split.
Defined.

(** X4.  A query that cannot be encoded for the address (it holds half of a
    surrogate pair) is reported as "Could not find location." without any
    request being made. *)
Theorem unencodable_search_is_not_sent :
  forall (host : Host) (s : Sys host State),
    is_empty (trim (locationName (page s))) = false ->
    encodeURIComponent (locationName (page s)) = None ->
    handleSearch s
    = (Ok tt,
       {| world := world s;
          calls := calls s;
          page := {| coords := coords (page s); locationName := locationName (page s);
                     date := date (page s); time := time (page s); style := style (page s);
                     isLoading := false; loadingStep := [];
                     result := result (page s);
                     error := Some (lit "Could not find location.") |} |}).
Proof.
  intros host s Hquery Hq.
  unfold handleSearch. unfold_run.
  rewrite Hquery, Hq. read_state. reflexivity.
Qed.

(** X4, run: a name cut in the middle of an emoji. *)
Lemma unencodable_search_is_not_sent_witness :
  let before := {| coords := DEFAULT_COORDS; locationName := lit "Delhi " ++ [55356%N];
                   date := lit "1947-08-15"; time := lit "10:00"; style := JOURNALISTIC;
                   isLoading := false; loadingStep := []; result := None; error := None |} in
  exists s',
    handleSearch
      (Scripted.start true
         {| Scripted.keys := []; Scripted.replies := [];
            Scripted.lookups := [Ok (JArray [])] |}
         before) = (Ok tt, s')
    /\ calls s' = []
    /\ error (page s') = Some (lit "Could not find location.").
Proof.
  intros before. eexists. split.
  - apply (@unencodable_search_is_not_sent (Scripted.host true)); reflexivity.
  - cbn. repeat split.
Defined.

(** X5.  A first entry with coordinates but without a [display_name] that
    is a string: the coordinates have been replaced by the time the name
    cannot be read, so the search ends with the new coordinates, the old
    name and the error "Could not find location.". *)
Theorem search_without_name_moves_pin :
  forall (host : Host) (s : Sys host State) (q : jsstring) (w : World host)
         (first : JSValue) (others : list JSValue) (la lo : JSValue) (las los : jsstring)
         (dn : JSValue),
    is_empty (trim (locationName (page s))) = false ->
    encodeURIComponent (locationName (page s)) = Some q ->
    fetch_json host (search_url q) (world s) = (Ok (JArray (first :: others)), w) ->
    get first (lit "lat") = Some la -> ToString host la = Some las ->
    get first (lit "lon") = Some lo -> ToString host lo = Some los ->
    get first (lit "display_name") = Some dn ->
    (forall t, dn <> JString t) ->
    handleSearch s
    = (Ok tt,
       {| world := w;
          calls := calls s ++ [Call_fetch (search_url q)];
          page := {| coords := {| lat := parseFloat las; lng := parseFloat los |};
                     locationName := locationName (page s);
                     date := date (page s); time := time (page s); style := style (page s);
                     isLoading := false; loadingStep := [];
                     result := result (page s);
                     error := Some (lit "Could not find location.") |} |}).
Proof.
  intros host s q w first others la lo las los dn
         Hquery Hq Hfetch Hlat Hlas Hlon Hlos Hname Hnostring.
  unfold handleSearch, has_results, parse_float, split_first, search_url in *. unfold_run.
  rewrite Hquery, Hq. read_state. rewrite Hfetch. read_state.
  cbn [truthy get_length greater_than_zero ToNumber option_map length].
  rewrite is_positive_length. read_state.
  cbn [get_first]. rewrite Hlat. read_state. rewrite Hlas. read_state.
  rewrite Hlon. read_state. rewrite Hlos. read_state. rewrite Hname. read_state.
  destruct dn as [| | b | n | t | items | props]; read_state; try reflexivity.
  destruct (Hnostring t eq_refl).
Qed.

(** X5, run: an entry that has the coordinates only. *)
Lemma search_without_name_moves_pin_witness :
  let entry := JObject [ (lit "lat", JString (lit "27.17")); (lit "lon", JString (lit "78.01")) ] in
  let before := {| coords := DEFAULT_COORDS; locationName := lit "Agra";
                   date := lit "1947-08-15"; time := lit "10:00"; style := JOURNALISTIC;
                   isLoading := false; loadingStep := []; result := None; error := None |} in
  exists s',
    handleSearch
      (Scripted.start true
         {| Scripted.keys := []; Scripted.replies := [];
            Scripted.lookups := [Ok (JArray [entry])] |}
         before) = (Ok tt, s')
    /\ coords (page s') = {| lat := Finite 2717 (-2); lng := Finite 7801 (-2) |}
    /\ locationName (page s') = lit "Agra"
    /\ error (page s') = Some (lit "Could not find location.").
Proof.
  intros entry before. eexists. split.
  - apply (@search_without_name_moves_pin (Scripted.host true)
             (Scripted.start true
                {| Scripted.keys := []; Scripted.replies := [];
                   Scripted.lookups := [Ok (JArray [entry])] |}
                before)
             (lit "Agra")
             {| Scripted.keys := []; Scripted.replies := []; Scripted.lookups := [] |}
             entry [] (JString (lit "27.17")) (JString (lit "78.01"))
             (lit "27.17") (lit "78.01") JUndefined);
      try reflexivity.
    intros t. discriminate.
  - cbn. repeat split.
Defined.

(** X6.  Whatever the geocoder does, a search returns normally; it makes at
    most one request, to the search address; it never touches the date, the
    time, the style or the result; unless the query is blank it ends with
    the loading indicator off; and it either leaves the error as it was or
    keeps the location name and sets one of its two messages. *)
Theorem search_is_contained :
  forall (host : Host) (s : Sys host State),
  exists s',
    handleSearch s = (Ok tt, s')
    /\ date (page s') = date (page s)
    /\ time (page s') = time (page s)
    /\ style (page s') = style (page s)
    /\ result (page s') = result (page s)
    /\ (calls s' = calls s \/ exists q, calls s' = calls s ++ [Call_fetch (search_url q)])
    /\ (is_empty (trim (locationName (page s))) = false ->
        isLoading (page s') = false /\ loadingStep (page s') = [])
    /\ (error (page s') = error (page s)
        \/ (locationName (page s') = locationName (page s)
            /\ (error (page s') = Some (lit "Location not found.")
                \/ error (page s') = Some (lit "Could not find location.")))).
Proof.
  intros host s.
  unfold handleSearch, has_results, parse_float, split_first, search_url. unfold_run.
  destruct (is_empty (trim (locationName (page s)))) eqn:Hquery.
  { exists s. repeat split; auto; discriminate. }
  destruct (encodeURIComponent (locationName (page s))) as [q |]; read_state.
  2:{ eexists. split; [reflexivity |]. read_state. repeat split; auto. }
  destruct (fetch_json host _ (world s)) as [[data | e] w]; read_state.
  2:{ eexists. split; [reflexivity |]. read_state. repeat split; eauto. }
  destruct (truthy data); read_state.
  2:{ eexists. split; [reflexivity |]. read_state. repeat split; eauto. }
  destruct (greater_than_zero host (get_length data)) as [[|] |]; read_state.
  2:{ eexists. split; [reflexivity |]. read_state. repeat split; eauto. }
  2:{ eexists. split; [reflexivity |]. read_state. repeat split; eauto. }
  destruct (get (get_first data) (lit "lat")) as [la |]; read_state.
  2:{ eexists. split; [reflexivity |]. read_state. repeat split; eauto. }
  destruct (ToString host la) as [las |]; read_state.
  2:{ eexists. split; [reflexivity |]. read_state. repeat split; eauto. }
  destruct (get (get_first data) (lit "lon")) as [lo |]; read_state.
  2:{ eexists. split; [reflexivity |]. read_state. repeat split; eauto. }
  destruct (ToString host lo) as [los |]; read_state.
  2:{ eexists. split; [reflexivity |]. read_state. repeat split; eauto. }
  destruct (get (get_first data) (lit "display_name")) as [dn |]; read_state.
  2:{ eexists. split; [reflexivity |]. read_state. repeat split; eauto. }
  destruct dn; read_state;
    (eexists; split; [reflexivity |]; read_state; repeat split; eauto).
Qed.

(** ** Clicking on the map *)

(** X7.  A reverse lookup that answers with a [display_name]: the location
    name becomes its text before the first comma, or "Selected Location"
    when that text is empty; nothing else on the page changes, and the one
    request made carries the clicked coordinates. *)
Theorem reverse_lookup_names_the_place :
  forall (host : Host) (s : Sys host State) (c : Coordinates)
         (data : JSValue) (dn : jsstring) (w : World host),
    fetch_json host (reverse_url host c) (world s) = (Ok data, w) ->
    get data (lit "display_name") = Some (JString dn) ->
    handleReverseGeocode c s
    = (Ok tt,
       {| world := w;
          calls := calls s ++ [Call_fetch (reverse_url host c)];
          page := {| coords := coords (page s);
                     locationName :=
                       if is_empty (split_head (code ",") dn) then lit "Selected Location"
                       else split_head (code ",") dn;
                     date := date (page s); time := time (page s); style := style (page s);
                     isLoading := isLoading (page s); loadingStep := loadingStep (page s);
                     result := result (page s); error := error (page s) |} |}).
Proof.
  intros host s c data dn w Hfetch Hname.
  assert (Htruthy : truthy data = true).
  { destruct data; try discriminate; reflexivity. }
  unfold handleReverseGeocode, split_first, reverse_url in *. unfold_run.
  rewrite Hfetch. read_state. rewrite Htruthy, Hname. read_state. reflexivity.
Qed.

(** X7, run: a click in the old city, and a click where the place has no
    name of its own. *)
Lemma reverse_lookup_names_the_place_witness :
  let named (dn : string) := JObject [ (lit "display_name", JString (lit dn)) ] in
  let click := {| lat := Finite 286562 (-4); lng := Finite 772410 (-4) |} in
  let start (dn : string) :=
    Scripted.start true
      {| Scripted.keys := []; Scripted.replies := []; Scripted.lookups := [Ok (named dn)] |}
      initial in
  locationName (page (snd (handleReverseGeocode click
                             (start "Chandni Chowk, Delhi, India"%string))))
  = lit "Chandni Chowk"
  /\ locationName (page (snd (handleReverseGeocode click (start ", India"%string))))
     = lit "Selected Location".
Proof.
  intros named click start. split.
  - exact (f_equal (fun r => locationName (page (snd r)))
             (@reverse_lookup_names_the_place (Scripted.host true)
                (start "Chandni Chowk, Delhi, India"%string) click
                (named "Chandni Chowk, Delhi, India"%string)
                (lit "Chandni Chowk, Delhi, India")
                {| Scripted.keys := []; Scripted.replies := []; Scripted.lookups := [] |}
                eq_refl eq_refl)).
  - exact (f_equal (fun r => locationName (page (snd r)))
             (@reverse_lookup_names_the_place (Scripted.host true)
                (start ", India"%string) click
                (named ", India"%string) (lit ", India")
                {| Scripted.keys := []; Scripted.replies := []; Scripted.lookups := [] |}
                eq_refl eq_refl)).
Defined.

(** X8.  Whatever the geocoder answers, a reverse lookup makes exactly one
    request, to the reverse address of the coordinates, and leaves a
    location name that is the old one or else is not empty and holds no
    comma. *)
Theorem reverse_lookup_is_contained :
  forall (host : Host) (s : Sys host State) (c : Coordinates),
  exists s',
    handleReverseGeocode c s = (Ok tt, s')
    /\ calls s' = calls s ++ [Call_fetch (reverse_url host c)]
    /\ (locationName (page s') = locationName (page s)
        \/ (locationName (page s') <> []
            /\ includes (locationName (page s')) (lit ",") = false)).
Proof.
  intros host s c.
  unfold handleReverseGeocode, split_first, reverse_url. unfold_run.
  destruct (fetch_json host _ (world s)) as [[data | e] w]; read_state.
  2:{ eexists. split; [reflexivity |]. read_state. auto. }
  destruct (truthy data); read_state.
  2:{ eexists. split; [reflexivity |]. read_state. auto. }
  destruct (get data (lit "display_name")) as [dn |]; read_state.
  2:{ eexists. split; [reflexivity |]. read_state. auto. }
  destruct dn as [| | b | n | t | items | props]; read_state;
    try (eexists; split; [reflexivity |]; read_state; auto; fail).
  eexists. split; [reflexivity |]. read_state. split; [reflexivity |]. right.
  destruct (split_head (code ",") t) as [| x shown] eqn:Hshown; cbn [is_empty].
  - split; [discriminate | reflexivity].
  - split; [discriminate |]. rewrite <- Hshown. apply split_head_no_separator.
Qed.

(** ** Choosing a preset *)

Lemma six_or_more (index : Z) : (6 <= index)%Z -> (6 <= Z.to_nat index)%nat.
Proof. lia. Qed.

(** There is no entry before the first or after the sixth. *)
Lemma preset_at_outside (index : Z) :
  (index < 0 \/ 6 <= index)%Z -> preset_at index = None.
Proof.
  intros Hout. unfold preset_at.
  destruct (index <? 0)%Z eqn:Hneg; [reflexivity |].
  apply Z.ltb_ge in Hneg. destruct Hout as [Hout | Hout]; [lia |].
  apply nth_error_None. exact (six_or_more Hout).
Qed.

(** X9.  A value of the preset box that is no index of the list changes
    nothing: a value that is not a number (the placeholder's empty value) is
    ignored, and a number outside the six entries of the list raises the
    engine's TypeError before any state is set. *)
Theorem preset_outside_list_changes_nothing :
  forall (host : Host) (s : Sys host State) (value : jsstring),
    (parseInt value = None -> handleRecommendationChange value s = (Ok tt, s))
    /\ (forall index,
           parseInt value = Some index ->
           (index < 0 \/ 6 <= index)%Z ->
           handleRecommendationChange value s
           = (Throw {| message := Some (fault_message host ReadOfNullish) |}, s)).
Proof.
  intros host s value. unfold handleRecommendationChange. split.
  - intros ->. reflexivity.
  - intros index -> Hout.
    rewrite (preset_at_outside Hout). reflexivity.
Qed.

(** X9, run: the placeholder's value, and a seventh option. *)
Lemma preset_outside_list_changes_nothing_witness :
  let s := Scripted.start false
             {| Scripted.keys := []; Scripted.replies := []; Scripted.lookups := [] |}
             initial in
  handleRecommendationChange [] s = (Ok tt, s)
  /\ handleRecommendationChange (lit "6") s
     = (Throw (Error (lit "Cannot read properties of undefined")), s).
Proof.
  intros s. split.
  - apply (proj1 (@preset_outside_list_changes_nothing (Scripted.host false) s [])).
    reflexivity.
  - apply (proj2 (@preset_outside_list_changes_nothing (Scripted.host false) s (lit "6")) 6%Z).
    + reflexivity.
    + right. apply Z.le_refl.
Defined.

(** ** The key check *)

(** X10.  The key check never answers yes on its own: a yes means the page
    runs in the studio and the last has-key check answered yes, either the
    first one (then nothing else was called) or the one made after the
    picker returned. *)
Theorem key_is_never_assumed :
  forall (host : Host) (Page : Type) (s s' : Sys host Page),
    geminiService.ensureApiKey s = (Ok true, s') ->
    exists studio,
      aistudio host = Some studio
      /\ page s' = page s
      /\ ((hasSelectedApiKey studio (world s) = (Ok true, world s')
           /\ calls s' = calls s ++ [Call_hasSelectedApiKey])
          \/ (exists w1 w2,
                 hasSelectedApiKey studio (world s) = (Ok false, w1)
                 /\ openSelectKey studio w1 = (Ok tt, w2)
                 /\ hasSelectedApiKey studio w2 = (Ok true, world s')
                 /\ calls s' = calls s ++ [Call_hasSelectedApiKey; Call_openSelectKey;
                                           Call_hasSelectedApiKey])).
Proof.
  intros host Page s s'. unfold geminiService.ensureApiKey. unfold_run.
  destruct (aistudio host) as [studio |]; [| discriminate].
  intros Hrun. exists studio. split; [reflexivity |].
  destruct (hasSelectedApiKey studio (world s)) as [[[|] | e] w1] eqn:Hfirst;
    cbn [world calls page negb] in Hrun.
  - injection Hrun as <-. cbn. split; [reflexivity |]. left. split; reflexivity.
  - destruct (openSelectKey studio w1) as [[[] | e] w2] eqn:Hopen;
      cbn [world calls page] in Hrun; [| discriminate].
    destruct (hasSelectedApiKey studio w2) as [[[|] | e] w3] eqn:Hsecond;
      cbn [world calls page] in Hrun; try discriminate.
    injection Hrun as <-. cbn. split; [reflexivity |]. right.
    exists w1, w2. rewrite <- !app_assoc. repeat split; assumption.
  - discriminate.
Qed.

(** X10, run: no key at first, one after the picker. *)
Lemma key_is_never_assumed_witness :
  let s := Scripted.start true
             {| Scripted.keys := [false; true]; Scripted.replies := []; Scripted.lookups := [] |}
             initial in
  exists s',
    geminiService.ensureApiKey s = (Ok true, s')
    /\ calls s' = [Call_hasSelectedApiKey; Call_openSelectKey; Call_hasSelectedApiKey]
    /\ page s' = initial.
Proof.
  intros s. eexists. split; [reflexivity |].
  destruct (@key_is_never_assumed (Scripted.host true) State s _ eq_refl)
    as (studio & _ & Hpage & _).
  split; [reflexivity | exact Hpage].
Defined.

(** X11.  When the first check answers no and the picker fails, the check
    is not made again and no adapter is called: the run ends without a
    result, showing the picker's error as the [catch] clause words it. *)
Theorem dismissed_picker_ends_the_run :
  forall (host : Host) (s : Sys host State) (studio : AIStudio (World host))
         (w1 w2 : World host) (e : Thrown),
    aistudio host = Some studio ->
    hasSelectedApiKey studio (world s) = (Ok false, w1) ->
    openSelectKey studio w1 = (Throw e, w2) ->
    exists s' msg,
      handleGenerate s = (Ok tt, s')
      /\ world s' = w2
      /\ calls s' = calls s ++ [Call_hasSelectedApiKey; Call_openSelectKey]
      /\ result (page s') = None
      /\ error (page s') = Some msg
      /\ surfaced e msg.
Proof.
  intros host s studio w1 w2 e Hstudio Hno Hopen.
  unfold handleGenerate, generate, geminiService.ensureApiKey. unfold_run.
  rewrite Hstudio. read_state. rewrite Hno. read_state. rewrite Hopen. read_state.
  match goal with
  | |- context [report e ?st] => destruct (report_surfaces e st) as (msg & Hmsg & Hreport)
  end.
  rewrite Hreport. read_state.
  eexists. exists msg. split; [reflexivity |]. read_state.
  rewrite <- !app_assoc.
  split; [reflexivity |]. split; [reflexivity |]. split; [reflexivity |].
  split; [reflexivity | exact Hmsg].
Qed.

(** X11, run: the picker is dismissed. *)
Lemma dismissed_picker_ends_the_run_witness :
  exists s',
    handleGenerate (Keyless.start initial) = (Ok tt, s')
    /\ calls s' = [Call_hasSelectedApiKey; Call_openSelectKey]
    /\ result (page s') = None
    /\ error (page s') = Some (lit "The key selection was dismissed.").
Proof.
  destruct (@dismissed_picker_ends_the_run Keyless.host (Keyless.start initial)
              {| hasSelectedApiKey := fun w => (Ok false, w);
                 openSelectKey := fun w => (Throw Keyless.dismissed, w) |}
              tt tt Keyless.dismissed eq_refl eq_refl eq_refl)
    as (s' & msg & Hrun & _ & Hcalls & Hres & Herr & _ & Hplain & _).
  exists s'. split; [exact Hrun |]. split; [exact Hcalls |]. split; [exact Hres |].
  rewrite Herr. f_equal.
  apply (Hplain (lit "The key selection was dismissed.")).
  - reflexivity.
  - discriminate.
  - reflexivity.
Defined.

(** ** The adapters when a call fails *)

(** X12.  When the client cannot be built, either adapter raises that
    error at once: no request is sent and nothing is written to the
    console. *)
Theorem no_client_no_request :
  forall (host : Host) (Page : Type) (request : GenerationRequest)
         (context : geminiService.VisualContext) (s : Sys host Page)
         (e : Thrown) (w : World host),
    new_GoogleGenAI host (world s) = (Throw e, w) ->
    geminiService.generateVisualPrompt request s
    = (Throw e, {| world := w; calls := calls s ++ [Call_new_GoogleGenAI]; page := page s |})
    /\ geminiService.generateSnapshot request context s
       = (Throw e, {| world := w; calls := calls s ++ [Call_new_GoogleGenAI];
                      page := page s |}).
Proof.
  intros host Page request context s e w Hnew.
  unfold geminiService.generateVisualPrompt, geminiService.generateSnapshot. unfold_run.
  rewrite Hnew. split; reflexivity.
Qed.

(** X12, run: the client asks for a key that is not there. *)
Lemma no_client_no_request_witness :
  fst (geminiService.generateVisualPrompt (build_request initial) (Keyless.start initial))
  = Throw Keyless.no_key
  /\ calls (snd (geminiService.generateVisualPrompt (build_request initial)
                   (Keyless.start initial)))
     = [Call_new_GoogleGenAI].
Proof.
  rewrite (proj1 (@no_client_no_request Keyless.host State (build_request initial)
                    {| geminiService.visualPrompt := JNull; geminiService.story := JNull |}
                    (Keyless.start initial) Keyless.no_key tt eq_refl)).
  split; reflexivity.
Defined.

(** X13.  When the scene request fails, the scene adapter raises the same
    error; it has built the client and sent that one request, and has
    written nothing to the console. *)
Theorem scene_request_failure_propagates :
  forall (host : Host) (Page : Type) (request : GenerationRequest) (s : Sys host Page)
         (e : Thrown) (w1 w2 : World host),
    new_GoogleGenAI host (world s) = (Ok tt, w1) ->
    generateContent host (geminiService.scene_request host request) w1 = (Throw e, w2) ->
    geminiService.generateVisualPrompt request s
    = (Throw e,
       {| world := w2;
          calls := calls s ++ [Call_new_GoogleGenAI;
                               Call_generateContent (geminiService.scene_request host request)];
          page := page s |}).
Proof.
  intros host Page request s e w1 w2 Hnew Hreply.
  unfold geminiService.generateVisualPrompt. unfold_run.
  rewrite Hnew. read_state. rewrite Hreply. read_state.
  rewrite <- !app_assoc. reflexivity.
Qed.

(** X13, run: the text model is overloaded. *)
Lemma scene_request_failure_propagates_witness :
  let busy := Error (lit "The model is overloaded.") in
  fst (geminiService.generateVisualPrompt (build_request initial)
         (Scripted.start true
            {| Scripted.keys := []; Scripted.replies := [Throw busy]; Scripted.lookups := [] |}
            initial))
  = Throw busy.
Proof.
  intros busy.
  rewrite (@scene_request_failure_propagates (Scripted.host true) State
             (build_request initial)
             (Scripted.start true
                {| Scripted.keys := []; Scripted.replies := [Throw busy];
                   Scripted.lookups := [] |}
                initial)
             busy
             {| Scripted.keys := []; Scripted.replies := [Throw busy]; Scripted.lookups := [] |}
             {| Scripted.keys := []; Scripted.replies := []; Scripted.lookups := [] |}
             eq_refl eq_refl).
  reflexivity.
Defined.

(** X14.  When the image request fails, the image adapter writes "Image
    generation error:" to the console and raises the same error again. *)
Theorem image_request_failure_is_logged :
  forall (host : Host) (Page : Type) (request : GenerationRequest)
         (context : geminiService.VisualContext) (s : Sys host Page)
         (scene : jsstring) (e : Thrown) (w1 w2 : World host),
    new_GoogleGenAI host (world s) = (Ok tt, w1) ->
    ToString host (geminiService.visualPrompt context) = Some scene ->
    generateContent host
      (geminiService.snapshot_request (geminiService.final_prompt scene request)) w1
    = (Throw e, w2) ->
    geminiService.generateSnapshot request context s
    = (Throw e,
       {| world := w2;
          calls := calls s
                     ++ [Call_new_GoogleGenAI;
                         Call_generateContent
                           (geminiService.snapshot_request
                              (geminiService.final_prompt scene request));
                         Call_console_error (lit "Image generation error:")];
          page := page s |}).
Proof.
  intros host Page request context s scene e w1 w2 Hnew Hscene Hreply.
  unfold geminiService.generateSnapshot. unfold_run.
  rewrite Hnew. read_state. rewrite Hscene. read_state. rewrite Hreply. read_state.
  rewrite <- !app_assoc. reflexivity.
Qed.

(** X14, run: the image model refuses the prompt. *)
Lemma image_request_failure_is_logged_witness :
  let refused := Error (lit "The prompt was blocked.") in
  let context := {| geminiService.visualPrompt := JString (lit "A crowd");
                    geminiService.story := JString (lit "Hi") |} in
  fst (geminiService.generateSnapshot (build_request initial) context
         (Scripted.start true
            {| Scripted.keys := []; Scripted.replies := [Throw refused];
               Scripted.lookups := [] |}
            initial))
  = Throw refused.
Proof.
  intros refused context.
  rewrite (@image_request_failure_is_logged (Scripted.host true) State
             (build_request initial) context
             (Scripted.start true
                {| Scripted.keys := []; Scripted.replies := [Throw refused];
                   Scripted.lookups := [] |}
                initial)
             (lit "A crowd") refused
             {| Scripted.keys := []; Scripted.replies := [Throw refused];
                Scripted.lookups := [] |}
             {| Scripted.keys := []; Scripted.replies := []; Scripted.lookups := [] |}
             eq_refl eq_refl eq_refl).
  reflexivity.
Defined.

(** ** What the adapters send and return *)

(** The loop over the parts leaves the empty text or a PNG data URL with
    bytes in it. *)
Lemma scan_parts_shape (ps : list GenAI.Part) :
  geminiService.scan_parts ps [] = []
  \/ exists d, d <> [] /\ geminiService.scan_parts ps [] = lit "data:image/png;base64," ++ d.
Proof.
  destruct (first_inline_part ps) as [Hnone | (before & p & after & d & -> & Hnone & Hp)].
  - left. apply scan_parts_none, Hnone.
  - right. exists d. split; [| apply scan_parts_first; assumption].
    unfold geminiService.inline_bytes in Hp.
    destruct (GenAI.inlineData p) as [blob |]; [| discriminate].
    destruct (GenAI.data blob) as [d' |]; [| discriminate].
    destruct d'; [discriminate |]. injection Hp as <-. discriminate.
Qed.

(** X15.  Whenever the image adapter returns an image, the prompt recorded
    in it is the very text it sent, in its one request, to the model
    gemini-3-pro-image-preview with aspect ratio 16:9 and size 2K; the URL
    of the image is "data:image/png;base64," followed by at least one more
    character; the description and the story are those of the context it
    was given. *)
Theorem returned_image_records_its_prompt :
  forall (host : Host) (Page : Type) (request : GenerationRequest)
         (context : geminiService.VisualContext) (s s' : Sys host Page)
         (image : GeneratedImage),
    geminiService.generateSnapshot request context s = (Ok image, s') ->
    calls s'
    = calls s ++ [Call_new_GoogleGenAI;
                  Call_generateContent
                    {| GenAI.model := lit "gemini-3-pro-image-preview";
                       GenAI.contents := promptUsed image;
                       GenAI.config := GenAI.ImageOutput (lit "16:9") (lit "2K") |}]
    /\ (exists scene,
           ToString host (geminiService.visualPrompt context) = Some scene
           /\ promptUsed image = geminiService.final_prompt scene request)
    /\ (exists bytes,
           bytes <> [] /\ imageUrl image = lit "data:image/png;base64," ++ bytes)
    /\ description image = geminiService.visualPrompt context
    /\ types.story image = geminiService.story context.
Proof.
  intros host Page request context s s' image.
  unfold geminiService.generateSnapshot. unfold_run.
  destruct (new_GoogleGenAI host (world s)) as [[[] | e] w1]; read_state; [| discriminate].
  destruct (ToString host (geminiService.visualPrompt context)) as [scene |];
    read_state; [| discriminate].
  destruct (generateContent host _ w1) as [[response | e] w2]; read_state; [| discriminate].
  set (found := match geminiService.returned_parts response with
                | Some ps => geminiService.scan_parts ps []
                | None => []
                end).
  assert (Hshape : found = []
                   \/ exists d, d <> [] /\ found = lit "data:image/png;base64," ++ d).
  { subst found. destruct (geminiService.returned_parts response) as [ps |];
      [apply scan_parts_shape | left; reflexivity]. }
  destruct Hshape as [Hempty | (d & Hd & Hfound)].
  - rewrite Hempty. cbn [is_empty]. read_state. discriminate.
  - rewrite Hfound.
    change (is_empty (lit "data:image/png;base64," ++ d)) with false. cbv iota.
    intros [= <- <-]. cbn [calls imageUrl description types.story promptUsed].
    rewrite <- !app_assoc.
    split; [reflexivity |]. split; [exists scene; split; reflexivity |].
    split; [exists d; split; [exact Hd | reflexivity] |]. split; reflexivity.
Qed.

(** X15, run: one part of bytes comes back. *)
Lemma returned_image_records_its_prompt_witness :
  let picture :=
    {| GenAI.text := None;
       GenAI.candidates :=
         Some [ {| GenAI.content :=
                     Some {| GenAI.parts :=
                               Some [ {| GenAI.inlineData :=
                                           Some {| GenAI.mimeType := Some (lit "image/png");
                                                   GenAI.data := Some (lit "iVBOR") |} |} ] |} |} ] |} in
  let context := {| geminiService.visualPrompt := JString (lit "A crowd");
                    geminiService.story := JString (lit "Hi") |} in
  let s := Scripted.start true
             {| Scripted.keys := []; Scripted.replies := [Ok picture]; Scripted.lookups := [] |}
             initial in
  exists image s',
    geminiService.generateSnapshot (build_request initial) context s = (Ok image, s')
    /\ calls s'
       = [Call_new_GoogleGenAI;
          Call_generateContent
            {| GenAI.model := lit "gemini-3-pro-image-preview";
               GenAI.contents := promptUsed image;
               GenAI.config := GenAI.ImageOutput (lit "16:9") (lit "2K") |}].
Proof.
  intros picture context s.
  destruct (geminiService.generateSnapshot (build_request initial) context s)
    as [[image | e] s'] eqn:Hrun; [| vm_compute in Hrun; discriminate].
  exists image, s'. split; [reflexivity |].
  exact (proj1 (@returned_image_records_its_prompt (Scripted.host true) State
                  (build_request initial) context s s' image Hrun)).
Defined.

Lemma includes_tail (before s : jsstring) : includes (before ++ s) s = true.
Proof.
  apply includes_app_right.
  pose proof (startsWith_self s []) as H. rewrite app_nil_r in H.
  destruct s; cbn [includes]; [reflexivity |]. rewrite H. reflexivity.
Qed.

(** X16.  For every description and every style, the prompt of the image
    request contains the description, the label of the style, and the two
    fixed lines on quality and camera. *)
Theorem image_prompt_contents :
  forall (scene : jsstring) (request : GenerationRequest),
    includes (geminiService.final_prompt scene request) scene = true
    /\ includes (geminiService.final_prompt scene request)
                (lit "Style: " ++ label (types.style request) ++ lit ".") = true
    /\ includes (geminiService.final_prompt scene request)
                (lit "Quality: High resolution, photorealistic, 8k, detailed textures.") = true
    /\ includes (geminiService.final_prompt scene request)
                (lit "Camera: Accurate to the era if vintage, or modern high-end capture if realistic.")
       = true.
Proof.
  intros scene request. unfold geminiService.final_prompt.
  split; [| split; [| split]].
  - apply includes_unlines with (l := lit "    " ++ scene); [cbn; auto |].
    apply (includes_tail (lit "    ")
             scene).
  - apply includes_unlines
      with (l := lit "    Style: " ++ label (types.style request) ++ lit "."); [cbn; auto |].
    apply (includes_tail (lit "    ")
             (lit "Style: " ++ label (types.style request) ++ lit ".")).
  - apply includes_unlines
      with (l := lit "    Quality: High resolution, photorealistic, 8k, detailed textures.");
      [cbn; auto 10 | reflexivity].
  - apply includes_unlines
      with (l := lit "    Camera: Accurate to the era if vintage, or modern high-end capture if realistic.");
      [cbn; auto 10 | reflexivity].
Qed.

(** X17.  The prompt of the scene request contains the location name, the
    date, both coordinates as the engine prints them, and the time after
    "Time: " when a time is given; an empty time is treated as no time;
    and the style plays no part in it. *)
Theorem scene_prompt_contents :
  forall (host : Host) (request : GenerationRequest),
    includes (geminiService.scene_prompt host request)
             (lit "Location Name: " ++ name (location request)) = true
    /\ includes (geminiService.scene_prompt host request)
                (lit "Date: " ++ types.date request) = true
    /\ includes (geminiService.scene_prompt host request)
                (lit "Location Coordinates: "
                   ++ Number_toString host (lat (types.coords (location request)))
                   ++ lit ", "
                   ++ Number_toString host (lng (types.coords (location request)))) = true
    /\ (forall t, types.time request = Some t -> t <> [] ->
                  includes (geminiService.scene_prompt host request) (lit "Time: " ++ t) = true)
    /\ geminiService.scene_prompt host
         {| location := location request; types.date := types.date request;
            types.time := Some []; types.style := types.style request |}
       = geminiService.scene_prompt host
           {| location := location request; types.date := types.date request;
              types.time := None; types.style := types.style request |}
    /\ (forall other,
           geminiService.scene_request host
             {| location := location request; types.date := types.date request;
                types.time := types.time request; types.style := other |}
           = geminiService.scene_request host request).
Proof.
  intros host request. unfold geminiService.scene_request, geminiService.scene_prompt.
  cbn [location types.date types.time types.style].
  split; [| split; [| split; [| split; [| split]]]].
  - apply includes_unlines with (l := lit "    Location Name: " ++ name (location request));
      [cbn; auto 10 |].
    apply (includes_tail (lit "    ")
             (lit "Location Name: " ++ name (location request))).
  - apply includes_unlines with (l := lit "    Date: " ++ types.date request);
      [cbn; auto 10 |].
    apply (includes_tail (lit "    ")
             (lit "Date: " ++ types.date request)).
  - apply includes_unlines
      with (l := lit "    Location Coordinates: "
                   ++ Number_toString host (lat (types.coords (location request)))
                   ++ lit ", "
                   ++ Number_toString host (lng (types.coords (location request))));
      [cbn; auto 10 |].
    apply (includes_tail (lit "    ")
             (lit "Location Coordinates: "
                ++ Number_toString host (lat (types.coords (location request)))
                ++ lit ", "
                ++ Number_toString host (lng (types.coords (location request))))).
  - intros t Ht Hnonempty. rewrite Ht.
    apply includes_unlines with (l := lit "    " ++ lit "Time: " ++ t).
    + destruct t; [congruence |]. cbn; auto 10.
    + apply (includes_tail (lit "    ")
             (lit "Time: " ++ t)).
  - reflexivity.
  - intros other. reflexivity.
Qed.

(** ** The page after a run *)

(** A message that the [catch] clause shows is never empty. *)
Lemma surfaced_non_empty (e : Thrown) (msg : jsstring) : surfaced e msg -> msg <> [].
Proof.
  intros (Hnamed & Hplain & Hnone).
  destruct (message e) as [[| c m] |] eqn:Hm.
  - rewrite (Hnone (or_intror eq_refl)). discriminate.
  - destruct (includes (c :: m) (lit "Requested entity was not found")) eqn:Hin.
    + rewrite (Hnamed _ eq_refl Hin). discriminate.
    + rewrite (Hplain _ eq_refl ltac:(discriminate) Hin). discriminate.
  - rewrite (Hnone (or_introl eq_refl)). discriminate.
Qed.

(** X18.  When a run of [handleGenerate] is over, the generate button is
    enabled again and the overlay is gone, and the page shows either the
    result, with no error banner, or the error banner together with the
    invitation to travel: a run that publishes nothing never ends without
    a visible message. *)
Theorem page_after_a_run :
  forall (host : Host) (s : Sys host State),
    let p := page (snd (handleGenerate s)) in
    generate_disabled p = false
    /\ shows_overlay p = false
    /\ shows_error p = negb (shows_result p)
    /\ shows_placeholder p = shows_error p.
Proof.
  intros host s.
  destruct (handleGenerate_outcome s)
    as (s' & added & Hrun & _ & _ & _ & _ & _ & Hload & _ & Hend).
  rewrite Hrun. cbn [snd].
  unfold generate_disabled, shows_overlay, shows_placeholder, shows_error, shows_result.
  rewrite Hload. cbn [andb negb].
  destruct Hend as [(image & _ & Hres & Herr)
                   | [(_ & Hres & Herr) | (step & e & msg & _ & Hmsg & Hres & Herr)]];
    rewrite Hres, Herr.
  - repeat split.
  - repeat split.
  - pose proof (surfaced_non_empty Hmsg) as Hne.
    destruct msg; [congruence |]. repeat split.
Qed.

Section Completion.
Context {host : Host}.

(** A run whose three steps succeed publishes the image of the last. *)
Lemma complete_run_publishes (s : Sys host State) (image : GeneratedImage) :
  run_completes (world s) (build_request (page s)) image ->
  exists s',
    handleGenerate s = (Ok tt, s')
    /\ result (page s') = Some image
    /\ error (page s') = None
    /\ same_inputs (page s) (page s').
Proof.
  intros Hdone.
  destruct (handleGenerate_outcome s)
    as (s' & added & Hrun & _ & _ & _ & _ & Hsame & _ & _ & Hend).
  exists s'. split; [exact Hrun |].
  destruct Hend as [(image' & Hdone' & Hres & Herr)
                   | [(Hkey & _) | (step & e & msg & Hraised & _)]].
  - assert (image = image') by (eapply completes_once; eassumption). subst image'. auto.
  - exfalso; eapply completes_with_key; eassumption.
  - exfalso; eapply completes_or_raises; eassumption.
Qed.

(** The scene step on no page, once the client is built and the request
    answered with text that does not parse. *)
Lemma scene_answers_degraded
      (request : GenerationRequest) (w1 w2 w3 : World host)
      (reply : GenAI.GenerateContentResponse) (raw : jsstring) :
  new_GoogleGenAI host w1 = (Ok tt, w2) ->
  generateContent host (geminiService.scene_request host request) w2 = (Ok reply, w3) ->
  GenAI.text reply = Some raw -> raw <> [] -> JSON_parse raw = None ->
  answers (geminiService.generateVisualPrompt request) w1
  = (Ok {| geminiService.visualPrompt := JString raw;
           geminiService.story :=
             JString (lit "Time travel successful, but the flight log is scrambled.") |},
     w3).
Proof.
  intros Hnew Hreply Htext Hraw Hparse. unfold answers.
  rewrite (@generateVisualPrompt_answered host unit request
             {| world := w1; calls := []; page := tt |} w2 w3 reply Hnew Hreply).
  rewrite (read_scene_rejected reply Htext Hraw (or_introl Hparse)).
  rewrite Htext, (text_or_present _ Hraw). reflexivity.
Qed.

End Completion.

(** X19.  A scene reply that is no JSON does not stop the run.  With a key,
    a non-empty reply that [JSON.parse] rejects, and an image reply with a
    part of bytes, the run publishes an image whose description is the raw
    reply, whose story is "Time travel successful, but the flight log is
    scrambled.", and whose prompt is built from the raw reply; no error is
    shown. *)
Theorem unparsable_scene_still_publishes :
  forall (host : Host) (s : Sys host State) (w1 w2 w3 w4 w5 : World host)
         (reply picture : GenAI.GenerateContentResponse) (raw : jsstring)
         (ps : list GenAI.Part) (p : GenAI.Part) (d : jsstring),
    let request := build_request (page s) in
    answers geminiService.ensureApiKey (world s) = (Ok true, w1) ->
    new_GoogleGenAI host w1 = (Ok tt, w2) ->
    generateContent host (geminiService.scene_request host request) w2 = (Ok reply, w3) ->
    GenAI.text reply = Some raw -> raw <> [] -> JSON_parse raw = None ->
    new_GoogleGenAI host w3 = (Ok tt, w4) ->
    generateContent host
      (geminiService.snapshot_request (geminiService.final_prompt raw request)) w4
    = (Ok picture, w5) ->
    geminiService.returned_parts picture = Some ps ->
    In p ps -> geminiService.inline_bytes p = Some d ->
    exists s' image,
      handleGenerate s = (Ok tt, s')
      /\ result (page s') = Some image
      /\ error (page s') = None
      /\ description image = JString raw
      /\ types.story image
         = JString (lit "Time travel successful, but the flight log is scrambled.")
      /\ promptUsed image = geminiService.final_prompt raw request.
Proof.
  intros host s w1 w2 w3 w4 w5 reply picture raw ps p d request
         Hkey Hnew Hreply Htext Hraw Hparse Hnew' Hpicture Hparts Hin Hbytes.
  destruct (first_inline_part ps)
    as [Hnone | (before & first & after & bytes & Hps & Hbefore & Hfirst)].
  { rewrite (Hnone p Hin) in Hbytes. discriminate. }
  set (context := {| geminiService.visualPrompt := JString raw;
                     geminiService.story :=
                       JString (lit "Time travel successful, but the flight log is scrambled.") |}).
  set (image := {| imageUrl := lit "data:image/png;base64," ++ bytes;
                   description := JString raw;
                   types.story :=
                     JString (lit "Time travel successful, but the flight log is scrambled.");
                   promptUsed := geminiService.final_prompt raw request |}).
  assert (Hdone : run_completes (world s) request image).
  { exists w1, context, w3, w5. split; [exact Hkey |]. split.
    - eapply scene_answers_degraded; eassumption.
    - unfold answers.
      rewrite (@generateSnapshot_answered host unit request context
                 {| world := w3; calls := []; page := tt |} raw w4 w5 picture
                 Hnew' eq_refl Hpicture).
      rewrite Hparts, Hps, (scan_parts_first before after first [] Hbefore Hfirst).
      change (is_empty (lit "data:image/png;base64," ++ bytes)) with false.
      reflexivity. }
  destruct (complete_run_publishes s Hdone) as (s' & Hrun & Hres & Herr & _).
  exists s', image. repeat split; assumption.
Qed.

(** X19, run: the text model answers in prose, the image model with bytes. *)
Lemma unparsable_scene_still_publishes_witness :
  let prose := {| GenAI.text := Some (lit "A crowd gathers at the fort.");
                  GenAI.candidates := None |} in
  let part := {| GenAI.inlineData :=
                   Some {| GenAI.mimeType := Some (lit "image/png");
                           GenAI.data := Some (lit "iVBOR") |} |} in
  let picture :=
    {| GenAI.text := None;
       GenAI.candidates :=
         Some [ {| GenAI.content := Some {| GenAI.parts := Some [part] |} |} ] |} in
  exists s' image,
    handleGenerate
      (Scripted.start true
         {| Scripted.keys := [true]; Scripted.replies := [Ok prose; Ok picture];
            Scripted.lookups := [] |}
         initial) = (Ok tt, s')
    /\ result (page s') = Some image
    /\ error (page s') = None
    /\ description image = JString (lit "A crowd gathers at the fort.").
Proof.
  intros prose part picture.
  destruct (@unparsable_scene_still_publishes (Scripted.host true)
              (Scripted.start true
                 {| Scripted.keys := [true]; Scripted.replies := [Ok prose; Ok picture];
                    Scripted.lookups := [] |}
                 initial)
              {| Scripted.keys := []; Scripted.replies := [Ok prose; Ok picture];
                 Scripted.lookups := [] |}
              {| Scripted.keys := []; Scripted.replies := [Ok prose; Ok picture];
                 Scripted.lookups := [] |}
              {| Scripted.keys := []; Scripted.replies := [Ok picture]; Scripted.lookups := [] |}
              {| Scripted.keys := []; Scripted.replies := [Ok picture]; Scripted.lookups := [] |}
              {| Scripted.keys := []; Scripted.replies := []; Scripted.lookups := [] |}
              prose picture (lit "A crowd gathers at the fort.") [part] part (lit "iVBOR")
              eq_refl eq_refl eq_refl eq_refl ltac:(discriminate) eq_refl
              eq_refl eq_refl eq_refl (or_introl eq_refl) eq_refl)
    as (s' & image & Hrun & Hres & Herr & Hdesc & _).
  exists s', image. repeat split; assumption.
Defined.

(** X20.  Selecting a preset and then generating runs the three steps for
    the preset's own name, coordinates, date, time and style: if they
    succeed for that request, the image is published, and the page still
    shows the preset's inputs. *)
Theorem preset_then_generate :
  forall (host : Host) (s : Sys host State) (idx : nat) (rec : Preset.t)
         (image : GeneratedImage),
    nth_error RECOMMENDATIONS idx = Some rec ->
    run_completes (world s) (preset_request rec) image ->
    exists s1 s2,
      handleRecommendationChange (option_value idx) s = (Ok tt, s1)
      /\ handleGenerate s1 = (Ok tt, s2)
      /\ result (page s2) = Some image
      /\ error (page s2) = None
      /\ locationName (page s2) = Preset.locationName rec
      /\ coords (page s2) = Preset.coords rec
      /\ date (page s2) = Preset.date rec
      /\ time (page s2) = Preset.time rec
      /\ style (page s2) = Preset.style rec.
Proof.
  intros host s idx rec image Hrec Hdone.
  assert (Hselect :
            handleRecommendationChange (option_value idx) s
            = (Ok tt,
               {| world := world s; calls := calls s;
                  page := {| coords := Preset.coords rec;
                             locationName := Preset.locationName rec;
                             date := Preset.date rec; time := Preset.time rec;
                             style := Preset.style rec;
                             isLoading := isLoading (page s);
                             loadingStep := loadingStep (page s);
                             result := None; error := None |} |})).
  { do 6 (destruct idx as [| idx];
          [ cbn in Hrec; injection Hrec as <-; reflexivity | ]).
    cbn in Hrec. destruct idx; discriminate. }
  rewrite Hselect.
  set (s1 := {| world := world s; calls := calls s;
                page := {| coords := Preset.coords rec;
                           locationName := Preset.locationName rec;
                           date := Preset.date rec; time := Preset.time rec;
                           style := Preset.style rec;
                           isLoading := isLoading (page s);
                           loadingStep := loadingStep (page s);
                           result := None; error := None |} |}).
  destruct (@complete_run_publishes host s1 image Hdone)
    as (s2 & Hrun & Hres & Herr & Hc & Hn & Hd & Ht & Hs).
  exists s1, s2. split; [reflexivity |]. split; [exact Hrun |].
  cbn in Hc, Hn, Hd, Ht, Hs. repeat split; assumption.
Qed.

(** X20, run: India's Independence is selected on a page that shows an old
    error, and the run goes through. *)
Lemma preset_then_generate_witness :
  let scene :=
    {| GenAI.text :=
         Some (lit "{" ++ quoted "visualPrompt" ++ lit ":" ++ quoted "A crowd at the fort"
                 ++ lit "," ++ quoted "story" ++ lit ":" ++ quoted "Freedom at midnight"
                 ++ lit "}");
       GenAI.candidates := None |} in
  let picture :=
    {| GenAI.text := None;
       GenAI.candidates :=
         Some [ {| GenAI.content :=
                     Some {| GenAI.parts :=
                               Some [ {| GenAI.inlineData :=
                                           Some {| GenAI.mimeType := Some (lit "image/png");
                                                   GenAI.data := Some (lit "iVBOR") |} |} ] |} |} ] |} in
  let before := {| coords := {| lat := Finite 508970 (-4); lng := Finite (-14040) (-4) |};
                   locationName := lit "Southampton Docks";
                   date := lit "1912-04-10"; time := lit "12:00"; style := VINTAGE;
                   isLoading := false; loadingStep := []; result := None;
                   error := Some (lit "Location not found.") |} in
  exists s1 s2 image,
    handleRecommendationChange (lit "0")
      (Scripted.start true
         {| Scripted.keys := [true]; Scripted.replies := [Ok scene; Ok picture];
            Scripted.lookups := [] |}
         before) = (Ok tt, s1)
    /\ handleGenerate s1 = (Ok tt, s2)
    /\ result (page s2) = Some image
    /\ description image = JString (lit "A crowd at the fort")
    /\ locationName (page s2) = lit "Red Fort, Delhi"
    /\ style (page s2) = JOURNALISTIC.
Proof.
  intros scene picture before.
  set (rec := {| Preset.label := [55356; 56814; 55356; 56819]%N ++ lit " India's Independence";
                 Preset.locationName := lit "Red Fort, Delhi";
                 Preset.coords := {| lat := Finite 286562 (-4); lng := Finite 772410 (-4) |};
                 Preset.date := lit "1947-08-15";
                 Preset.time := lit "08:30";
                 Preset.style := JOURNALISTIC |}).
  set (image := {| imageUrl := lit "data:image/png;base64,iVBOR";
                   description := JString (lit "A crowd at the fort");
                   types.story := JString (lit "Freedom at midnight");
                   promptUsed := geminiService.final_prompt (lit "A crowd at the fort")
                                   (preset_request rec) |}).
  destruct (@preset_then_generate (Scripted.host true)
              (Scripted.start true
                 {| Scripted.keys := [true]; Scripted.replies := [Ok scene; Ok picture];
                    Scripted.lookups := [] |}
                 before)
              0 rec image eq_refl)
    as (s1 & s2 & Hselect & Hrun & Hres & _ & Hname & _ & _ & _ & Hstyle).
  - unfold run_completes, answers. do 4 eexists.
    split; [reflexivity |]. split; reflexivity.
  - exists s1, s2, image. repeat split; assumption.
Defined.

(** ** The calls of a run *)

(** Finds the shape of a log among the four it may have. *)
Ltac shape :=
  first [ left; reflexivity
        | right; left; reflexivity
        | right; right; left; reflexivity
        | right; right; right; reflexivity ].

Section Logs.
Context {host : Host} {Page : Type}.

Lemma ensureApiKey_calls (s : Sys host Page) :
  exists added,
    calls (snd (geminiService.ensureApiKey s)) = calls s ++ added
    /\ key_calls added
    /\ (fst (geminiService.ensureApiKey s) = Ok true -> added <> []).
Proof.
  unfold geminiService.ensureApiKey, key_calls. unfold_run.
  destruct (aistudio host) as [studio |]; read_state.
  2:{ exists []. rewrite app_nil_r. split; [reflexivity |]. split; [shape | discriminate]. }
  destruct (hasSelectedApiKey studio (world s)) as [[[|] | e] w1]; read_state.
  - eexists. split; [reflexivity |]. split; [shape | discriminate].
  - destruct (openSelectKey studio w1) as [[[] | e] w2]; read_state.
    + destruct (hasSelectedApiKey studio w2) as [r w3]; read_state.
      eexists. rewrite <- !app_assoc. split; [reflexivity |]. split; [shape | discriminate].
    + eexists. rewrite <- !app_assoc. split; [reflexivity |]. split; [shape | discriminate].
  - eexists. split; [reflexivity |]. split; [shape | discriminate].
Qed.

Lemma generateVisualPrompt_calls (request : GenerationRequest) (s : Sys host Page) :
  exists added,
    calls (snd (geminiService.generateVisualPrompt request s)) = calls s ++ added
    /\ adapter_calls (geminiService.scene_request host request)
                     (lit "Failed to parse JSON from Gemini Flash") added
    /\ (forall context,
           fst (geminiService.generateVisualPrompt request s) = Ok context ->
           In (Call_generateContent (geminiService.scene_request host request)) added).
Proof.
  unfold geminiService.generateVisualPrompt, adapter_calls. unfold_run.
  destruct (new_GoogleGenAI host (world s)) as [[[] | e] w1]; read_state.
  2:{ eexists. split; [reflexivity |]. split; [shape | discriminate]. }
  destruct (generateContent host _ w1) as [[response | e] w2]; read_state.
  2:{ eexists. rewrite <- !app_assoc. split; [reflexivity |]. split; [shape | discriminate]. }
  destruct (geminiService.read_scene response); read_state;
    (eexists; rewrite <- !app_assoc; split; [reflexivity |]; split;
     [shape | intros; cbn; auto]).
Qed.

Lemma generateSnapshot_calls
      (request : GenerationRequest) (context : geminiService.VisualContext)
      (s : Sys host Page) :
  exists added prompt,
    calls (snd (geminiService.generateSnapshot request context s)) = calls s ++ added
    /\ adapter_calls (geminiService.snapshot_request prompt)
                     (lit "Image generation error:") added.
Proof.
  unfold geminiService.generateSnapshot, adapter_calls. unfold_run.
  destruct (new_GoogleGenAI host (world s)) as [[[] | e] w1]; read_state.
  2:{ eexists. exists []. split; [reflexivity | shape]. }
  destruct (ToString host _) as [scene |]; read_state.
  2:{ eexists. exists []. split; [reflexivity | shape]. }
  destruct (generateContent host _ w1) as [[response | e] w2]; read_state.
  2:{ eexists. eexists. rewrite <- !app_assoc. split; [reflexivity | shape]. }
  destruct (is_empty _); read_state;
    (eexists; eexists; rewrite <- !app_assoc; split; [reflexivity | shape]).
Qed.

End Logs.

Section RunLog.
Context {host : Host}.

(** The calls of a run, step by step. *)
Lemma handleGenerate_log (s : Sys host State) :
  exists key scene image prompt,
    calls (snd (handleGenerate s)) = calls s ++ key ++ scene ++ image
    /\ key_calls key
    /\ adapter_calls (geminiService.scene_request host (build_request (page s)))
                     (lit "Failed to parse JSON from Gemini Flash") scene
    /\ adapter_calls (geminiService.snapshot_request prompt)
                     (lit "Image generation error:") image
    /\ (scene <> [] -> key <> [])
    /\ (image <> [] ->
        In (Call_generateContent
              (geminiService.scene_request host (build_request (page s)))) scene).
Proof.
  unfold handleGenerate, generate. unfold_run.
  set (request := build_request (page s)).
  match goal with
  | |- context [geminiService.ensureApiKey ?s0] =>
      destruct (ensureApiKey_calls s0) as (key & Hkey & Hshape1 & Hyes);
      destruct (geminiService.ensureApiKey s0) as [r1 s1] eqn:Hrun1
  end.
  cbn [fst snd] in *. read_state.
  assert (Hnothing : adapter_calls (geminiService.scene_request host request)
                       (lit "Failed to parse JSON from Gemini Flash") []) by (left; reflexivity).
  assert (Hnothing' : adapter_calls (geminiService.snapshot_request [])
                        (lit "Image generation error:") []) by (left; reflexivity).
  destruct r1 as [[|] | e]; read_state.
  - match goal with
    | |- context [geminiService.generateVisualPrompt request ?s1'] =>
        destruct (generateVisualPrompt_calls request s1') as (scene & Hscene & Hshape2 & Hsent);
        destruct (geminiService.generateVisualPrompt request s1') as [r2 s2] eqn:Hrun2
    end.
    cbn [fst snd] in *. read_state.
    destruct r2 as [context | e]; read_state.
    + match goal with
      | |- context [geminiService.generateSnapshot request context ?s2'] =>
          destruct (generateSnapshot_calls request context s2')
            as (image & prompt & Himage & Hshape3);
          destruct (geminiService.generateSnapshot request context s2') as [r3 s3] eqn:Hrun3
      end.
      cbn [fst snd] in *. read_state.
      exists key, scene, image, prompt.
      split.
      * destruct r3 as [img | e]; read_state;
          [| destruct (report_surfaces e s3) as (msg & _ & Hreport);
             rewrite Hreport; read_state];
          rewrite Himage, Hscene, Hkey, <- !app_assoc; reflexivity.
      * repeat split; auto. intros _. eauto.
    + exists key, scene, [], [].
      split.
      * destruct (report_surfaces e s2) as (msg & _ & Hreport).
        rewrite Hreport. read_state.
        rewrite Hscene, Hkey, app_nil_r, <- !app_assoc. reflexivity.
      * repeat split; auto. intros H; congruence.
  - exists key, [], [], []. split.
    + rewrite Hkey, !app_nil_r. reflexivity.
    + repeat split; auto; intros H; congruence.
  - exists key, [], [], []. split.
    + destruct (report_surfaces e s1) as (msg & _ & Hreport).
      rewrite Hreport. read_state. rewrite Hkey, !app_nil_r. reflexivity.
    + repeat split; auto; intros H; congruence.
Qed.

End RunLog.

(** X21.  The calls a run of [handleGenerate] adds to the log are those of
    the key check (at most has-key, picker, has-key), then those of the
    scene adapter, then those of the image adapter, each adapter building
    its client and sending at most one request (nothing is sent twice).
    The scene adapter is reached only after the key check, the image
    adapter only after the scene request was sent, and the geocoder is
    never called. *)
Theorem run_log_grammar :
  forall (host : Host) (s : Sys host State),
  exists key scene image prompt,
    calls (snd (handleGenerate s)) = calls s ++ key ++ scene ++ image
    /\ key_calls key
    /\ adapter_calls (geminiService.scene_request host (build_request (page s)))
                     (lit "Failed to parse JSON from Gemini Flash") scene
    /\ adapter_calls (geminiService.snapshot_request prompt)
                     (lit "Image generation error:") image
    /\ (scene <> [] -> key <> [])
    /\ (image <> [] ->
        In (Call_generateContent
              (geminiService.scene_request host (build_request (page s)))) scene)
    /\ (forall url, ~ In (Call_fetch url) (key ++ scene ++ image)).
Proof.
  intros host s.
  destruct (handleGenerate_log s)
    as (key & scene & image & prompt & Hcalls & Hkey & Hscene & Himage & Hfirst & Hthen).
  exists key, scene, image, prompt. repeat (split; [assumption |]).
  intros url Hin.
  apply in_app_or in Hin. destruct Hin as [Hin | Hin];
    [| apply in_app_or in Hin; destruct Hin as [Hin | Hin]].
  - destruct Hkey as [-> | [-> | [-> | ->]]]; cbn in Hin; intuition discriminate.
  - destruct Hscene as [-> | [-> | [-> | ->]]]; cbn in Hin; intuition discriminate.
  - destruct Himage as [-> | [-> | [-> | ->]]]; cbn in Hin; intuition discriminate.
Qed.

(** X22.  A reply that parses to an object holding a non-empty string under
    each of the two keys is returned as it is: the description and the
    narrative are the reply's own strings, unchanged; the adapter has built
    the client and sent its one request, and has written nothing to the
    console. *)
Theorem well_formed_scene_is_returned :
  forall (host : Host) (Page : Type) (request : GenerationRequest) (s : Sys host Page)
         (w1 w2 : World host) (reply : GenAI.GenerateContentResponse)
         (json : JSValue) (vp st : jsstring),
    new_GoogleGenAI host (world s) = (Ok tt, w1) ->
    generateContent host (geminiService.scene_request host request) w1 = (Ok reply, w2) ->
    JSON_parse (text_or (GenAI.text reply) (lit "{}")) = Some json ->
    get json (lit "visualPrompt") = Some (JString vp) -> vp <> [] ->
    get json (lit "story") = Some (JString st) -> st <> [] ->
    geminiService.generateVisualPrompt request s
    = (Ok {| geminiService.visualPrompt := JString vp; geminiService.story := JString st |},
       {| world := w2;
          calls := calls s ++ [Call_new_GoogleGenAI;
                               Call_generateContent (geminiService.scene_request host request)];
          page := page s |}).
Proof.
  intros host Page request s w1 w2 reply json vp st Hnew Hreply Hjson Hvp Hvp' Hst Hst'.
  rewrite (generateVisualPrompt_answered request s Hnew Hreply).
  rewrite (read_scene_two_fields reply Hjson Hvp Hvp' Hst Hst').
  rewrite <- !app_assoc. reflexivity.
Qed.

(** X22, run: the reply of scenario A, with spaces and a line feed in it. *)
Lemma well_formed_scene_is_returned_witness :
  let reply :=
    {| GenAI.text :=
         Some (lit "{ " ++ quoted "visualPrompt" ++ lit ": " ++ quoted "A crowd at the fort"
                 ++ lit "," ++ [10%N] ++ quoted "story" ++ lit ": "
                 ++ quoted "Freedom at midnight" ++ lit " }");
       GenAI.candidates := None |} in
  fst (geminiService.generateVisualPrompt (build_request initial)
         (Scripted.start true
            {| Scripted.keys := []; Scripted.replies := [Ok reply]; Scripted.lookups := [] |}
            initial))
  = Ok {| geminiService.visualPrompt := JString (lit "A crowd at the fort");
          geminiService.story := JString (lit "Freedom at midnight") |}.
Proof.
  intros reply.
  rewrite (@well_formed_scene_is_returned (Scripted.host true) State
             (build_request initial)
             (Scripted.start true
                {| Scripted.keys := []; Scripted.replies := [Ok reply];
                   Scripted.lookups := [] |}
                initial)
             {| Scripted.keys := []; Scripted.replies := [Ok reply]; Scripted.lookups := [] |}
             {| Scripted.keys := []; Scripted.replies := []; Scripted.lookups := [] |}
             reply
             (JObject [ (lit "visualPrompt", JString (lit "A crowd at the fort"));
                        (lit "story", JString (lit "Freedom at midnight")) ])
             (lit "A crowd at the fort") (lit "Freedom at midnight")
             eq_refl eq_refl eq_refl eq_refl ltac:(discriminate) eq_refl ltac:(discriminate)).
  reflexivity.
Defined.
